(** * ATM simulator: a shallow embedding of [atm_simulator.py]

    The class [ATMSimulator] keeps a balance, a PIN, a bound on PIN attempts
    and a transaction history.  Amounts go through Python's [float()], so
    the balance is an IEEE-754 binary64 number: it is modelled by Rocq's
    primitive [float], whose operations are the same binary64 operations
    (round to nearest, ties to even).

    Printing, the terminal ([getpass]) and exceptions are modelled by a small
    monad over a [world]: the object, what was printed so far, and the
    terminal events still to come. *)

From Stdlib Require Import ZArith List String Ascii Bool Lia Floats.
Import ListNotations.

Set Warnings "-inexact-float".

Local Open Scope string_scope.

(** ** Python values, exceptions and printed lines *)

(** The exceptions the modelled code can meet. *)
Inductive exn : Set :=
| ValueError
| TypeError
| OverflowError
| KeyboardInterrupt
| EOFError.

Definition exn_eqb (a b : exn) : bool :=
  match a, b with
  | ValueError, ValueError
  | TypeError, TypeError
  | OverflowError, OverflowError
  | KeyboardInterrupt, KeyboardInterrupt
  | EOFError, EOFError => true
  | _, _ => false
  end.

(** The arguments [deposit] and [withdraw] are called with: a float, an
    int, a string (what [run] passes, straight from [input()]), or an object
    [float()] has no conversion for. *)
Inductive pyval : Set :=
| PyFloat (f : float)
| PyInt (z : Z)
| PyStr (s : string)
| PyNone.

(** A printed line is the concatenation of its fragments; [Money x] stands
    for [{x:.2f}] and [Int z] for [{z}] of an f-string. *)
Inductive fragment : Set :=
| Lit (s : string)
| Int (z : Z)
| Money (x : float).

Definition line : Set := list fragment.

(** One entry of [_transaction_history]: the dict built by
    [_log_transaction]. *)
Record transaction : Set := mkTransaction {
  tx_type : string;
  tx_amount : float;
  tx_balance : float;
  tx_timestamp : string
}.

(** The attributes set by [__init__]. *)
Record ATMSimulator : Set := mkATM {
  _balance : float;
  _pin : string;
  _max_attempts : Z;
  _transaction_history : list transaction
}.

(** [ATMSimulator(initial_balance, pin, max_attempts)] for an initial
    balance that is a float.  The source stores the argument as given, and
    from the first accepted call on the balance is a float.  An int of
    magnitude at most 2^53, such as the default 1000, is exactly the float
    it converts to and behaves as that float; a larger int is not covered:
    Python compares it with a float exactly, not after rounding it. *)
Definition __init__ (initial_balance : float) (pin : string) (max_attempts : Z)
  : ATMSimulator :=
  {| _balance := initial_balance;
     _pin := pin;
     _max_attempts := max_attempts;
     _transaction_history := [] |}.

(** The defaults of [__init__]: balance 1000, PIN '1234', three attempts. *)
Definition default_atm : ATMSimulator := __init__ 1000%float "1234" 3.

(** What the terminal answers to one [getpass.getpass] call: a typed line,
    or Ctrl-C.  An exhausted terminal is end of file. *)
Inductive tty_event : Set :=
| Typed (s : string)
| CtrlC.

Record world : Set := mkWorld {
  self : ATMSimulator;
  stdout : list line;
  tty : list tty_event
}.

(** ** The monad: state, exceptions, and fuel for the [while] loop *)

Inductive result (A : Type) : Type :=
| Return (a : A)
| Raise (e : exn)
| OutOfFuel.

Arguments Return {A} a.
Arguments Raise {A} e.
Arguments OutOfFuel {A}.

Definition M (A : Type) : Type := world -> result A * world.

Definition ret {A} (a : A) : M A := fun w => (Return a, w).

Definition bind {A B} (c : M A) (k : A -> M B) : M B :=
  fun w =>
    match c w with
    | (Return a, w') => k a w'
    | (Raise e, w') => (Raise e, w')
    | (OutOfFuel, w') => (OutOfFuel, w')
    end.

Definition raise {A} (e : exn) : M A := fun w => (Raise e, w).

(** A computation that touches nothing: it only returns or raises. *)
Definition lift {A} (r : result A) : M A := fun w => (r, w).

(** [try: body except e: handler].  What the body changed before it raised
    stays changed. *)
Definition try_except {A} (body : M A) (e : exn) (handler : M A) : M A :=
  fun w =>
    match body w with
    | (Raise e', w') => if exn_eqb e' e then handler w' else (Raise e', w')
    | r => r
    end.

Declare Scope atm_scope.
Delimit Scope atm_scope with atm.
Notation "x <- c ;; k" := (bind c (fun x => k))
  (at level 61, c at next level, right associativity) : atm_scope.
Notation "c ;; k" := (bind c (fun _ => k))
  (at level 61, right associativity) : atm_scope.
Local Open Scope atm_scope.

Definition print (l : line) : M unit :=
  fun w => (Return tt, {| self := self w; stdout := stdout w ++ [l]; tty := tty w |}).

(** Reading an attribute of [self]. *)
Definition attr {A} (f : ATMSimulator -> A) : M A :=
  fun w => (Return (f (self w)), w).

Definition set_balance (b : float) : M unit :=
  fun w =>
    (Return tt,
     {| self := {| _balance := b;
                   _pin := _pin (self w);
                   _max_attempts := _max_attempts (self w);
                   _transaction_history := _transaction_history (self w) |};
        stdout := stdout w;
        tty := tty w |}).

(** [self._transaction_history.append(t)]. *)
Definition append_transaction (t : transaction) : M unit :=
  fun w =>
    (Return tt,
     {| self := {| _balance := _balance (self w);
                   _pin := _pin (self w);
                   _max_attempts := _max_attempts (self w);
                   _transaction_history := _transaction_history (self w) ++ [t] |};
        stdout := stdout w;
        tty := tty w |}).

(** [getpass.getpass(prompt)]: the next terminal event. *)
Definition getpass : M string :=
  fun w =>
    match tty w with
    | [] => (Raise EOFError, w)
    | Typed s :: rest =>
        (Return s, {| self := self w; stdout := stdout w; tty := rest |})
    | CtrlC :: rest =>
        (Raise KeyboardInterrupt, {| self := self w; stdout := stdout w; tty := rest |})
    end.

(** ** [float()] *)

(** [float(z)] for an int: the nearest binary64 number, ties to even, and
    [OverflowError] when that is out of range. *)
Definition float_of_int (z : Z) : option float :=
  match binary_normalize prec emax z 0 false with
  | S754_infinity _ => None
  | sf => Some (SF2Prim sf)
  end.

Section Ledger.

(** [float(s)] for a string is the interpreter's parser, not code of this
    program: it is a parameter, [None] standing for [ValueError]. *)
Variable float_of_str : string -> option float.

Definition py_float (v : pyval) : result float :=
  match v with
  | PyFloat f => Return f
  | PyInt z =>
      match float_of_int z with
      | Some f => Return f
      | None => Raise OverflowError
      end
  | PyStr s =>
      match float_of_str s with
      | Some f => Return f
      | None => Raise ValueError
      end
  | PyNone => Raise TypeError
  end.

(** ** The ledger *)

(** [_log_transaction(transaction_type, amount)]; [now] is what
    [datetime.now().strftime(...)] gives during the call. *)
Definition _log_transaction (now : string) (transaction_type : string) (amount : float)
  : M unit :=
  balance <- attr _balance ;;
  append_transaction {| tx_type := transaction_type;
                        tx_amount := amount;
                        tx_balance := balance;
                        tx_timestamp := now |}.

Definition check_balance : M unit :=
  balance <- attr _balance ;;
  print [Lit "Your current balance is: $"; Money balance].

Definition invalid_deposit_line : line :=
  [Lit "Invalid deposit amount. Please enter a positive value."].
Definition invalid_withdrawal_line : line :=
  [Lit "Invalid withdrawal amount. Please enter a positive value."].
Definition insufficient_funds_line : line := [Lit "Insufficient funds!"].
Definition invalid_input_line : line :=
  [Lit "Invalid input. Please enter a numeric amount."].

Definition deposit (now : string) (amount : pyval) : M bool :=
  try_except
    (amount <- lift (py_float amount) ;;
     if (amount <=? 0)%float then
       print invalid_deposit_line ;;
       ret false
     else
       balance <- attr _balance ;;
       set_balance (balance + amount)%float ;;
       _log_transaction now "deposit" amount ;;
       print [Lit "$"; Money amount; Lit " deposited successfully."] ;;
       balance <- attr _balance ;;
       print [Lit "New balance: $"; Money balance] ;;
       ret true)
    ValueError
    (print invalid_input_line ;;
     ret false).

Definition withdraw (now : string) (amount : pyval) : M bool :=
  try_except
    (amount <- lift (py_float amount) ;;
     if (amount <=? 0)%float then
       print invalid_withdrawal_line ;;
       ret false
     else
       balance <- attr _balance ;;
       if (balance <? amount)%float then
         print insufficient_funds_line ;;
         ret false
       else
         set_balance (balance - amount)%float ;;
         _log_transaction now "withdrawal" amount ;;
         print [Lit "$"; Money amount; Lit " withdrawn successfully."] ;;
         balance <- attr _balance ;;
         print [Lit "New balance: $"; Money balance] ;;
         ret true)
    ValueError
    (print invalid_input_line ;;
     ret false).

End Ledger.

(** ** Authentication *)

Definition auth_success_line : line := [Lit "Authentication successful!"].
Definition cancelled_line : line := [Lit (String (ascii_of_nat 10) "Operation cancelled.")].
Definition locked_line : line := [Lit "Too many invalid attempts. Account locked."].
Definition invalid_pin_line (remaining : Z) : line :=
  [Lit "Invalid PIN. "; Int remaining; Lit " attempt";
   Lit (if (remaining =? 1)%Z then "" else "s"); Lit " remaining."].

(** The body of the [while] loop of [authenticate], a [try] statement.
    [inl b]: the function returns [b]; [inr n]: the body ran to its end with
    the local [attempts] now [n]. *)
Definition attempt (attempts : Z) : M (bool + Z) :=
  try_except
    (entered_pin <- getpass ;;
     pin <- attr _pin ;;
     if String.eqb entered_pin pin then
       print auth_success_line ;;
       ret (inl true)
     else
       let attempts := (attempts + 1)%Z in
       max_attempts <- attr _max_attempts ;;
       let remaining := (max_attempts - attempts)%Z in
       print (invalid_pin_line remaining) ;;
       ret (inr attempts))
    KeyboardInterrupt
    (print cancelled_line ;;
     ret (inl false)).

(** The [while attempts < self._max_attempts] loop.  The result carries,
    next to the returned boolean, the value of the local [attempts] when the
    function returns. *)
Fixpoint authenticate_loop (fuel : nat) (attempts : Z) : M (bool * Z) :=
  match fuel with
  | O => fun w => (OutOfFuel, w)
  | S fuel' =>
      max_attempts <- attr _max_attempts ;;
      if (attempts <? max_attempts)%Z then
        r <- attempt attempts ;;
        match r with
        | inl b => ret (b, attempts)
        | inr attempts' => authenticate_loop fuel' attempts'
        end
      else
        print locked_line ;;
        ret (false, attempts)
  end.

(** Fuel for a loop that starts with [attempts = 0]: one test of the loop
    condition per attempt, and the last one that fails. *)
Definition authenticate_fuel (a : ATMSimulator) : nat :=
  S (Z.to_nat (_max_attempts a)).

Definition authenticate_counting : M (bool * Z) :=
  fun w => authenticate_loop (authenticate_fuel (self w)) 0 w.

Definition authenticate : M bool :=
  r <- authenticate_counting ;;
  ret (fst r).

(** ** Sequences of calls *)

(** One call on the ledger, with the clock reading during it. *)
Inductive call : Set :=
| Deposit (now : string) (amount : pyval)
| Withdraw (now : string) (amount : pyval).

Section Calls.

Variable float_of_str : string -> option float.

Definition run_call (c : call) : M bool :=
  match c with
  | Deposit now amount => deposit float_of_str now amount
  | Withdraw now amount => withdraw float_of_str now amount
  end.

(** The calls one after the other, each on the world the previous one left,
    whatever it returned or raised; the results are kept in order. *)
Fixpoint run_calls (cs : list call) (w : world) : list (result bool) * world :=
  match cs with
  | [] => ([], w)
  | c :: cs' =>
      let '(r, w') := run_call c w in
      let '(rs, w'') := run_calls cs' w' in
      (r :: rs, w'')
  end.

End Calls.

(** A deposit of the float [d] when the clock reads [now]. *)
Definition deposit_of (d : string * float) : call := Deposit (fst d) (PyFloat (snd d)).

(** The running sums [b + d1], [(b + d1) + d2], ... in binary64. *)
Fixpoint partial_sums (b : float) (ds : list float) : list float :=
  match ds with
  | [] => []
  | d :: ds' => (b + d)%float :: partial_sums (b + d)%float ds'
  end.

(** [sum(ds)] as Python computes it: from 0, left to right. *)
Definition float_sum (ds : list float) : float :=
  fold_left PrimFloat.add ds 0%float.

(** Each element is at least the one before it, starting from [b]. *)
Fixpoint nondecreasing_from (b : float) (l : list float) : Prop :=
  match l with
  | [] => True
  | x :: l' => (b <=? x)%float = true /\ nondecreasing_from x l'
  end.

(** The entries that deposits [ds] append to the history of a ledger whose
    balance is [b]. *)
Fixpoint deposit_log (b : float) (ds : list (string * float)) : list transaction :=
  match ds with
  | [] => []
  | d :: ds' =>
      {| tx_type := "deposit"; tx_amount := snd d;
         tx_balance := (b + snd d)%float; tx_timestamp := fst d |} ::
      deposit_log (b + snd d)%float ds'
  end.

(** ** Worlds after a call, for the statements below *)

(** A world in which nothing was printed yet. *)
Definition fresh_world (a : ATMSimulator) (events : list tty_event) : world :=
  {| self := a; stdout := []; tty := events |}.

(** The world after [ls] were printed. *)
Definition printed (ls : list line) (w : world) : world :=
  {| self := self w; stdout := stdout w ++ ls; tty := tty w |}.

(** The call returned [False] after printing [l] and changed nothing else:
    what the ledger does for an amount it turns down.  The line tells the
    reason: [invalid_deposit_line], [invalid_withdrawal_line] and
    [invalid_input_line] for an invalid amount, [insufficient_funds_line]
    for insufficient funds. *)
Definition refused (l : line) (w : world) (r : result bool * world) : Prop :=
  fst r = Return false /\
  self (snd r) = self w /\
  tty (snd r) = tty w /\
  stdout (snd r) = (stdout w ++ [l])%list.

(** The world after a deposit of [a] went through. *)
Definition deposited (now : string) (a : float) (w : world) : world :=
  let b := (_balance (self w) + a)%float in
  {| self := {| _balance := b;
                _pin := _pin (self w);
                _max_attempts := _max_attempts (self w);
                _transaction_history :=
                  _transaction_history (self w) ++
                  [{| tx_type := "deposit"; tx_amount := a;
                      tx_balance := b; tx_timestamp := now |}] |};
     stdout := stdout w ++
               [[Lit "$"; Money a; Lit " deposited successfully."];
                [Lit "New balance: $"; Money b]];
     tty := tty w |}.

(** The world after a withdrawal of [a] went through. *)
Definition withdrawn (now : string) (a : float) (w : world) : world :=
  let b := (_balance (self w) - a)%float in
  {| self := {| _balance := b;
                _pin := _pin (self w);
                _max_attempts := _max_attempts (self w);
                _transaction_history :=
                  _transaction_history (self w) ++
                  [{| tx_type := "withdrawal"; tx_amount := a;
                      tx_balance := b; tx_timestamp := now |}] |};
     stdout := stdout w ++
               [[Lit "$"; Money a; Lit " withdrawn successfully."];
                [Lit "New balance: $"; Money b]];
     tty := tty w |}.

(** The lines printed for wrong PINs number [attempts + 1] to
    [attempts + n]. *)
Fixpoint wrong_pin_lines (max_attempts attempts : Z) (n : nat) : list line :=
  match n with
  | O => []
  | S n' =>
      invalid_pin_line (max_attempts - (attempts + 1)) ::
      wrong_pin_lines max_attempts (attempts + 1) n'
  end.

(** ** A reading of [float()] on strings

    The interpreter's [float()] accepts, between optional white space, an
    optional sign followed by [inf], [infinity] or [nan] in any case, or by
    a decimal number with an optional fraction and exponent, single
    underscores allowed between digits, and returns the nearest binary64
    number.  This reading of it on ASCII strings instantiates the parameter
    [float_of_str] in the examples. *)
Module PyFloatStr.

(** The white space [float()] takes off the ends of a string whose
    characters are below 256: tab to carriage return, space, and the two
    Latin-1 spaces. *)
Definition is_space (c : ascii) : bool :=
  let n := nat_of_ascii c in
  ((9 <=? n) && (n <=? 13) || (n =? 32) || (n =? 133) || (n =? 160))%nat.

Definition digit_val (c : ascii) : option Z :=
  let n := nat_of_ascii c in
  if ((48 <=? n) && (n <=? 57))%nat then Some (Z.of_nat (n - 48)) else None.

Definition is_digit (c : ascii) : bool :=
  match digit_val c with Some _ => true | None => false end.

Definition lower (c : ascii) : ascii :=
  let n := nat_of_ascii c in
  if ((65 <=? n) && (n <=? 90))%nat then ascii_of_nat (n + 32) else c.

Fixpoint lstrip (l : list ascii) : list ascii :=
  match l with
  | c :: l' => if is_space c then lstrip l' else l
  | [] => []
  end.

Definition strip (l : list ascii) : list ascii :=
  rev (lstrip (rev (lstrip l))).

(** A run of digits, single underscores allowed between two digits: the
    number read after [acc], how many digits, and what follows. *)
Fixpoint read_digits (l : list ascii) (acc count : Z) : Z * Z * list ascii :=
  match l with
  | c :: l' =>
      match digit_val c with
      | Some d => read_digits l' (10 * acc + d) (count + 1)
      | None =>
          if (Ascii.eqb c "_" && (0 <? count)%Z &&
              match l' with c' :: _ => is_digit c' | [] => false end)%bool
          then read_digits l' acc count
          else (acc, count, l)
      end
  | [] => (acc, count, [])
  end.

Definition read_sign (l : list ascii) : bool * list ascii :=
  match l with
  | "+"%char :: l' => (false, l')
  | "-"%char :: l' => (true, l')
  | _ => (false, l)
  end.

(** The binary64 number nearest to [n * 10 ^ e10], ties to even, with the
    sign [neg]; [n] is not negative. *)
Definition of_decimal (neg : bool) (n e10 : Z) : float :=
  SF2Prim
    (match n with
     | Z0 => S754_zero neg
     | _ =>
         if (0 <=? e10)%Z then
           binary_normalize prec emax
             (if neg then - (n * 10 ^ e10) else n * 10 ^ e10)%Z 0 false
         else
           let '(q, e, l) := SFdiv_core_binary prec emax n 0 (10 ^ (- e10)) 0 in
           binary_round_aux prec emax neg q e l
     end).

Definition read_exponent (l : list ascii) : option (Z * list ascii) :=
  match l with
  | c :: l' =>
      if Ascii.eqb (lower c) "e" then
        let '(neg, l'') := read_sign l' in
        let '(e, count, rest) := read_digits l'' 0 0 in
        if (0 <? count)%Z then Some (if neg then (- e)%Z else e, rest) else None
      else Some (0%Z, l)
  | [] => Some (0%Z, [])
  end.

Definition read_number (neg : bool) (l : list ascii) : option float :=
  let '(ip, ic, r1) := read_digits l 0 0 in
  let '(n, fc, r2) :=
    match r1 with
    | "."%char :: r1' => read_digits r1' ip 0
    | _ => (ip, 0%Z, r1)
    end in
  if (0 <? ic + fc)%Z then
    match read_exponent r2 with
    | Some (e, []) => Some (of_decimal neg n (e - fc))
    | _ => None
    end
  else None.

Definition float_of_str (s : string) : option float :=
  let '(neg, l) := read_sign (strip (list_ascii_of_string s)) in
  let word := string_of_list_ascii (map lower l) in
  if String.eqb word "inf" || String.eqb word "infinity" then
    Some (if neg then neg_infinity else infinity)
  else if String.eqb word "nan" then Some nan
  else read_number neg l.

End PyFloatStr.

(** ** Listing the history *)

(** [str.isspace] for a character below 256. *)
Definition py_isspace (c : ascii) : bool :=
  let n := nat_of_ascii c in
  ((9 <=? n) && (n <=? 13) || (28 <=? n) && (n <=? 32) || (n =? 133) || (n =? 160))%nat.

Fixpoint lstrip_chars (l : list ascii) : list ascii :=
  match l with
  | c :: l' => if py_isspace c then lstrip_chars l' else l
  | [] => []
  end.

(** [s.strip()]: white space taken off both ends. *)
Definition py_strip (s : string) : string :=
  string_of_list_ascii
    (rev (lstrip_chars (rev (lstrip_chars (list_ascii_of_string s))))).

Definition ascii_upper (c : ascii) : ascii :=
  let n := nat_of_ascii c in
  if ((97 <=? n) && (n <=? 122))%nat then ascii_of_nat (n - 32) else c.

Definition ascii_lower (c : ascii) : ascii :=
  let n := nat_of_ascii c in
  if ((65 <=? n) && (n <=? 90))%nat then ascii_of_nat (n + 32) else c.

Fixpoint string_lower (s : string) : string :=
  match s with
  | EmptyString => EmptyString
  | String c s' => String (ascii_lower c) (string_lower s')
  end.

(** [s.capitalize()] on ASCII text, which the transaction types are: the
    first character in upper case, the others in lower case. *)
Definition capitalize (s : string) : string :=
  match s with
  | EmptyString => EmptyString
  | String c s' => String (ascii_upper c) (string_lower s')
  end.

(** [for x in l: body(x)]. *)
Fixpoint for_each {A} (l : list A) (body : A -> M unit) : M unit :=
  match l with
  | [] => ret tt
  | x :: l' => body x ;; for_each l' body
  end.

Definition no_transactions_line : line := [Lit "No transactions found."].
Definition history_header_line : line :=
  [Lit (String (ascii_of_nat 10) "--- Transaction History ---")].

(** The line printed for one transaction. *)
Definition history_line (t : transaction) : line :=
  [Lit (tx_timestamp t); Lit " | ";
   Lit "Type: "; Lit (capitalize (tx_type t)); Lit " | ";
   Lit "Amount: $"; Money (tx_amount t); Lit " | ";
   Lit "Balance: $"; Money (tx_balance t)].

Definition print_transaction_history : M unit :=
  history <- attr _transaction_history ;;
  match history with
  | [] => print no_transactions_line
  | _ =>
      print history_header_line ;;
      for_each history (fun transaction => print (history_line transaction))
  end.

(** ** The menu loop *)

(** [input(prompt)]: the prompt goes to the output, then the next terminal
    event is read, as for [getpass]. *)
Definition input (prompt : string) : M string :=
  print [Lit prompt] ;;
  getpass.

(** The six lines of the menu. *)
Definition print_menu : M unit :=
  print [Lit (String (ascii_of_nat 10) "--- ATM Menu ---")] ;;
  print [Lit "1. Check Balance"] ;;
  print [Lit "2. Deposit Money"] ;;
  print [Lit "3. Withdraw Money"] ;;
  print [Lit "4. Transaction History"] ;;
  print [Lit "5. Exit"].

(** What [print_menu] prints. *)
Definition menu_lines : list line :=
  [[Lit (String (ascii_of_nat 10) "--- ATM Menu ---")];
   [Lit "1. Check Balance"];
   [Lit "2. Deposit Money"];
   [Lit "3. Withdraw Money"];
   [Lit "4. Transaction History"];
   [Lit "5. Exit"]].

Definition choice_prompt_line : line := [Lit "Enter your choice (1-5): "].

Definition goodbye_line : line := [Lit "Thank you for using the ATM. Goodbye!"].
Definition invalid_choice_line : line := [Lit "Invalid choice. Please try again."].

(** How [run] ends: by returning, or by [sys.exit], whose [SystemExit]
    nothing in the program catches. *)
Inductive ending : Set :=
| Returned
| SystemExit (code : Z).

Section Session.

Variable float_of_str : string -> option float.

(** [clock n] is what [datetime.now().strftime(...)] gives during pass
    number [n] of the menu loop. *)
Variable clock : nat -> string.

(** One pass through the body of [while True]; [true] stands for
    [break]. *)
Definition menu_pass (now : string) : M bool :=
  try_except
    (print_menu ;;
     choice <- input "Enter your choice (1-5): " ;;
     let choice := py_strip choice in
     if String.eqb choice "1" then
       check_balance ;;
       ret false
     else if String.eqb choice "2" then
       amount <- input "Enter amount to deposit: $" ;;
       deposit float_of_str now (PyStr amount) ;;
       ret false
     else if String.eqb choice "3" then
       amount <- input "Enter amount to withdraw: $" ;;
       withdraw float_of_str now (PyStr amount) ;;
       ret false
     else if String.eqb choice "4" then
       print_transaction_history ;;
       ret false
     else if String.eqb choice "5" then
       print goodbye_line ;;
       ret true
     else
       print invalid_choice_line ;;
       ret false)
    KeyboardInterrupt
    (print cancelled_line ;;
     ret true).

Fixpoint menu_loop (fuel : nat) (pass : nat) : M unit :=
  match fuel with
  | O => fun w => (OutOfFuel, w)
  | S fuel' =>
      stop <- menu_pass (clock pass) ;;
      if stop then ret tt else menu_loop fuel' (S pass)
  end.

(** Every pass reads the terminal at least once, so one pass per event
    still to come, and one more, is fuel enough. *)
Definition run : M ending :=
  authenticated <- authenticate ;;
  if negb authenticated then
    ret (SystemExit 1)
  else
    (fun w => menu_loop (S (List.length (tty w))) 0 w) ;;
    ret Returned.

(** [main()]: a default [ATMSimulator], run on the terminal events
    [events]. *)
Definition main (events : list tty_event) : result ending * world :=
  run (fresh_world default_atm events).

End Session.

(** ** The history read back *)

(** The balance a transaction leaves, from the balance before it. *)
Definition apply_transaction (b : float) (t : transaction) : float :=
  if String.eqb (tx_type t) "deposit" then (b + tx_amount t)%float
  else (b - tx_amount t)%float.

(** Every entry is a deposit or a withdrawal of an amount that passed the
    check [amount <= 0], a withdrawal did not exceed the balance before it,
    and the balance it records is the balance before it with the amount
    added or taken away. *)
Fixpoint well_formed_from (b : float) (l : list transaction) : Prop :=
  match l with
  | [] => True
  | t :: l' =>
      (tx_type t = "deposit" \/
       tx_type t = "withdrawal" /\ (b <? tx_amount t)%float = false) /\
      (tx_amount t <=? 0)%float = false /\
      tx_balance t = apply_transaction b t /\
      well_formed_from (tx_balance t) l'
  end.

(** The balance the last entry records, [b] if there is none. *)
Definition last_balance (b : float) (l : list transaction) : float :=
  fold_left (fun _ t => tx_balance t) l b.

(** How many calls returned [True]. *)
Fixpoint count_true (rs : list (result bool)) : nat :=
  match rs with
  | [] => O
  | Return true :: rs' => S (count_true rs')
  | _ :: rs' => count_true rs'
  end.

(** The argument of a call. *)
Definition amount_of (c : call) : pyval :=
  match c with Deposit _ v | Withdraw _ v => v end.

(** The call takes a string, as every call made from the menu does. *)
Definition string_call (c : call) : Prop := exists s, amount_of c = PyStr s.

(** ** Shapes of binary64 numbers, for the arithmetic facts *)

(** The exponent the format gives a number of [x] binary digits. *)
Definition fexp64 (x : Z) : Z := Z.max (x - 53) (-1074).

Definition sf_pos (x : spec_float) : bool :=
  match x with
  | S754_infinity false | S754_finite false _ _ => true
  | _ => false
  end.

Definition sf_neg (x : spec_float) : bool :=
  match x with
  | S754_infinity true | S754_finite true _ _ => true
  | _ => false
  end.

Definition sf_zero (x : spec_float) : bool :=
  match x with
  | S754_zero _ => true
  | _ => false
  end.

(** A number strictly between the infinities: what [math.isfinite] tells. *)
Definition finite (a : float) : bool :=
  (neg_infinity <? a)%float && (a <? infinity)%float.

(** The call's argument, when [float()] gives a number for it, is finite. *)
Definition finite_amount (float_of_str : string -> option float) (c : call) : Prop :=
  match py_float float_of_str
          match c with Deposit _ v | Withdraw _ v => v end with
  | Return a => finite a = true
  | _ => True
  end.

(** * Facts *)

(** ** Binary64 arithmetic

    What the ledger needs of binary64 addition, subtraction and comparison,
    proved on the standard library's specification [SpecFloat] of the
    format and carried over to primitive floats. *)
Module Binary64.

Local Open Scope Z_scope.

Lemma digits2_pos_bounds (p : positive) :
  2 ^ (Zpos (digits2_pos p) - 1) <= Zpos p < 2 ^ Zpos (digits2_pos p).
Proof.
  induction p as [p IH | p IH | ]; cbn [digits2_pos].
  - rewrite Pos2Z.inj_succ.
    replace (Z.succ (Zpos (digits2_pos p)) - 1) with (Z.succ (Zpos (digits2_pos p) - 1)) by lia.
    rewrite !Z.pow_succ_r by lia. lia.
  - rewrite Pos2Z.inj_succ.
    replace (Z.succ (Zpos (digits2_pos p)) - 1) with (Z.succ (Zpos (digits2_pos p) - 1)) by lia.
    rewrite !Z.pow_succ_r by lia. lia.
  - cbn. lia.
Qed.

Lemma iter_xO_mul (m d : positive) :
  Zpos (Pos.iter xO m d) = Zpos m * 2 ^ Zpos d.
Proof.
  induction d as [|d IH] using Pos.peano_ind.
  - cbn. lia.
  - rewrite Pos.iter_succ, Pos2Z.inj_succ, Z.pow_succ_r by lia.
    rewrite Pos2Z.inj_xO, IH. lia.
Qed.

Lemma pow2_xO (p : positive) : 2 ^ Zpos p~0 = 2 ^ Zpos p * 2 ^ Zpos p.
Proof. rewrite <- Z.pow_add_r by lia. f_equal. lia. Qed.

Lemma pow2_xI (p : positive) : 2 ^ Zpos p~1 = 2 * (2 ^ Zpos p * 2 ^ Zpos p).
Proof.
  rewrite <- Z.pow_add_r, <- Z.pow_succ_r by lia. f_equal. lia.
Qed.

(** [shr_1] halves a non-negative mantissa. *)
Lemma shr_1_m (mrs : shr_record) :
  0 <= shr_m mrs -> shr_m (shr_1 mrs) = shr_m mrs / 2.
Proof.
  destruct mrs as [m r s]; cbn [shr_m]; intros Hm.
  destruct m as [|p|p]; [reflexivity | | lia].
  destruct p as [p|p|]; cbn [shr_1 shr_m].
  - rewrite Pos2Z.inj_xI. apply Z.div_unique with 1; lia.
  - rewrite Pos2Z.inj_xO. apply Z.div_unique with 0; lia.
  - reflexivity.
Qed.

Lemma iter_shr_1_m (p : positive) : forall mrs,
  0 <= shr_m mrs -> shr_m (iter_pos shr_1 p mrs) = shr_m mrs / 2 ^ Zpos p.
Proof.
  induction p as [p IH | p IH | ]; intros mrs Hm; cbn [iter_pos].
  - assert (H1 : 0 <= shr_m (shr_1 mrs)).
    { rewrite shr_1_m by assumption. apply Z.div_pos; lia. }
    assert (H2 : 0 <= shr_m (iter_pos shr_1 p (shr_1 mrs))).
    { rewrite IH by assumption. apply Z.div_pos; lia. }
    rewrite IH, IH, shr_1_m by assumption.
    rewrite !Z.div_div by lia.
    rewrite pow2_xI. reflexivity.
  - assert (H2 : 0 <= shr_m (iter_pos shr_1 p mrs)).
    { rewrite IH by assumption. apply Z.div_pos; lia. }
    rewrite IH, IH by assumption.
    rewrite !Z.div_div by lia.
    rewrite pow2_xO. reflexivity.
  - rewrite shr_1_m by assumption. reflexivity.
Qed.

(** *** The binary64 format *)

Lemma fexp_fexp64 (x : Z) : fexp prec emax x = fexp64 x.
Proof. reflexivity. Qed.

Lemma fexp64_mono (x y : Z) : x <= y -> fexp64 x <= fexp64 y.
Proof. unfold fexp64. lia. Qed.

Lemma bounded_inv (m : positive) (e : Z) :
  bounded prec emax m e = true ->
  fexp64 (Zpos (digits2_pos m) + e) = e /\ e <= 971.
Proof.
  unfold bounded, canonical_mantissa. rewrite fexp_fexp64.
  intros H. apply andb_true_iff in H as [H1 H2].
  apply Z.eqb_eq in H1. apply Z.leb_le in H2.
  change (emax - prec) with 971 in H2. auto.
Qed.

Lemma shr_record_of_loc_m (m : Z) (l : location) :
  shr_m (shr_record_of_loc m l) = m.
Proof. destruct l as [|[| |]]; reflexivity. Qed.

Lemma round_nearest_even_bounds (m : Z) (l : location) :
  m <= round_nearest_even m l <= m + 1.
Proof.
  destruct l as [|[| |]]; cbn [round_nearest_even]; try lia.
  destruct (Z.even m); lia.
Qed.

(** What [shr_fexp] does to a positive mantissa: the exponent goes up to
    the format's exponent, the mantissa is divided accordingly and stays
    positive. *)
Lemma shr_fexp_pos (X t : Z) (l : location) :
  0 < X -> -1074 <= t ->
  exists mrs t',
    shr_fexp prec emax X t l = (mrs, t') /\
    t' = Z.max t (fexp64 (Zdigits2 X + t)) /\
    shr_m mrs = X / 2 ^ (t' - t) /\
    0 < shr_m mrs.
Proof.
  intros HX Ht.
  destruct X as [|x|x]; try lia.
  unfold shr_fexp, shr. rewrite fexp_fexp64. cbn [Zdigits2].
  destruct (fexp64 (Zpos (digits2_pos x) + t) - t) as [|p|p] eqn:En.
  - eexists _, _. split; [reflexivity|].
    rewrite shr_record_of_loc_m.
    replace (Z.max t (fexp64 (Zpos (digits2_pos x) + t))) with t by lia.
    rewrite Z.sub_diag, Z.div_1_r. lia.
  - eexists _, _. split; [reflexivity|].
    rewrite iter_shr_1_m by (rewrite shr_record_of_loc_m; lia).
    rewrite shr_record_of_loc_m.
    replace (Z.max t (fexp64 (Zpos (digits2_pos x) + t))) with (t + Zpos p) by lia.
    replace (t + Zpos p - t) with (Zpos p) by lia.
    split; [reflexivity|]. split; [reflexivity|].
    assert (Hp : Zpos p = Zpos (digits2_pos x) - 53) by (unfold fexp64 in En; lia).
    pose proof (digits2_pos_bounds x) as [Hlo _].
    replace (Zpos (digits2_pos x) - 1) with (Zpos p + 52) in Hlo by lia.
    rewrite Z.pow_add_r in Hlo by lia.
    assert (2 ^ 52 <= Zpos x / 2 ^ Zpos p).
    { apply Z.div_le_lower_bound; [apply Z.pow_pos_nonneg; lia | lia]. }
    assert (0 < 2 ^ 52) by (apply Z.pow_pos_nonneg; lia).
    lia.
  - eexists _, _. split; [reflexivity|].
    rewrite shr_record_of_loc_m.
    replace (Z.max t (fexp64 (Zpos (digits2_pos x) + t))) with t by lia.
    rewrite Z.sub_diag, Z.div_1_r. lia.
Qed.

(** Rounding a positive mantissa: the result is a positive finite number or
    the infinity of the same sign, and its exponent and mantissa are those of
    two successive shifts with one rounding step between them. *)
Lemma binary_round_aux_pos (s : bool) (M e : Z) (l : location) :
  0 < M -> -1074 <= e ->
  exists (M2 t2 : Z) (m3 : positive),
    let t1 := Z.max e (fexp64 (Zdigits2 M + e)) in
    M / 2 ^ (t1 - e) <= M2 /\
    0 < M2 /\
    t2 = Z.max t1 (fexp64 (Zdigits2 M2 + t1)) /\
    Zpos m3 = M2 / 2 ^ (t2 - t1) /\
    binary_round_aux prec emax s M e l =
      if t2 <=? 971 then S754_finite s m3 t2 else S754_infinity s.
Proof.
  intros HM He.
  destruct (shr_fexp_pos M e l HM He) as (mrs1 & t1 & E1 & Ht1 & Hm1 & Hp1).
  pose proof (round_nearest_even_bounds (shr_m mrs1) (loc_of_shr_record mrs1)) as HR.
  set (M2 := round_nearest_even (shr_m mrs1) (loc_of_shr_record mrs1)) in *.
  assert (HM2 : 0 < M2) by lia.
  assert (Ht1' : -1074 <= t1) by lia.
  destruct (shr_fexp_pos M2 t1 loc_Exact HM2 Ht1') as (mrs2 & t2 & E2 & Ht2 & Hm2 & Hp2).
  destruct (shr_m mrs2) as [|m3|m3] eqn:Em3; try lia.
  exists M2, t2, m3. cbv zeta.
  rewrite <- Ht1.
  split; [lia|]. split; [assumption|]. split; [assumption|]. split; [assumption|].
  unfold binary_round_aux. rewrite E1. fold M2. rewrite E2, Em3.
  reflexivity.
Qed.

Lemma Zdigits2_lower (m1 : positive) (k M : Z) :
  0 <= k -> Zpos m1 * 2 ^ k <= M ->
  Zpos (digits2_pos m1) + k <= Zdigits2 M.
Proof.
  intros Hk HM.
  assert (Hpow : 0 < 2 ^ k) by (apply Z.pow_pos_nonneg; lia).
  destruct M as [|M|M]; try lia.
  cbn [Zdigits2].
  pose proof (digits2_pos_bounds m1) as [Hlo _].
  pose proof (digits2_pos_bounds M) as [_ Hhi].
  assert (H : 2 ^ (Zpos (digits2_pos m1) - 1 + k) < 2 ^ Zpos (digits2_pos M)).
  { rewrite Z.pow_add_r by lia. nia. }
  apply Z.pow_lt_mono_r_iff in H; lia.
Qed.

(** A rounded value is not below a number of the format that the exact
    value is not below. *)
Lemma binary_round_aux_ge (m1 : positive) (e1 M e : Z) (l : location) :
  fexp64 (Zpos (digits2_pos m1) + e1) = e1 ->
  -1074 <= e <= e1 ->
  Zpos m1 * 2 ^ (e1 - e) <= M ->
  exists (m3 : positive) (t2 : Z),
    binary_round_aux prec emax false M e l =
      (if t2 <=? 971 then S754_finite false m3 t2 else S754_infinity false) /\
    (e1 < t2 \/ (e1 = t2 /\ Zpos m1 <= Zpos m3)).
Proof.
  intros Hc He HM.
  assert (Hpow : 0 < 2 ^ (e1 - e)) by (apply Z.pow_pos_nonneg; lia).
  assert (HM0 : 0 < M) by nia.
  destruct (binary_round_aux_pos false M e l HM0 (proj1 He))
    as (M2 & t2 & m3 & Hdiv & HM2 & Ht2 & Hm3 & E).
  cbv zeta in Hdiv, Ht2, Hm3.
  exists m3, t2. split; [exact E|].
  pose proof (Zdigits2_lower m1 (e1 - e) M ltac:(lia) HM) as Hd.
  assert (Hf : e1 <= fexp64 (Zdigits2 M + e)).
  { rewrite <- Hc. apply fexp64_mono. lia. }
  set (t1 := Z.max e (fexp64 (Zdigits2 M + e))) in *.
  destruct (Z_lt_le_dec e1 t1) as [Hlt|Hle]; [left; lia|].
  assert (Et1 : t1 = e1) by lia.
  destruct (Z_lt_le_dec t1 t2) as [Hlt2|Hle2]; [left; lia|].
  right. split; [lia|].
  replace (t2 - t1) with 0 in Hm3 by lia.
  rewrite Z.div_1_r in Hm3. rewrite Hm3.
  rewrite Et1 in Hdiv.
  assert (Zpos m1 <= M / 2 ^ (e1 - e)) by (apply Z.div_le_lower_bound; lia).
  lia.
Qed.

Lemma shl_align_fst (m : positive) (e ez : Z) :
  ez <= e -> Zpos (fst (shl_align m e ez)) = Zpos m * 2 ^ (e - ez).
Proof.
  intros H. unfold shl_align.
  destruct (ez - e) as [|d|d] eqn:Ed; cbn [fst]; try lia.
  - replace (e - ez) with 0 by lia. cbn. lia.
  - rewrite iter_xO_mul. replace (e - ez) with (Zpos d) by lia. reflexivity.
Qed.

Lemma shl_align_id (m : positive) (e e' : Z) :
  e <= e' -> shl_align m e e' = (m, e).
Proof.
  intros H. unfold shl_align. destruct (e' - e) eqn:E; try reflexivity; lia.
Qed.

(** *** Signs and comparisons on [spec_float] *)

Lemma SFltb_zero_l (x : spec_float) : SFltb (S754_zero false) x = sf_pos x.
Proof. destruct x as [[]|[]| |[] ? ?]; reflexivity. Qed.

Lemma SFltb_zero_r (x : spec_float) : SFltb x (S754_zero false) = sf_neg x.
Proof. destruct x as [[]|[]| |[] ? ?]; reflexivity. Qed.

Lemma SFleb_zero_l (x : spec_float) :
  SFleb (S754_zero false) x = sf_zero x || sf_pos x.
Proof. destruct x as [[]|[]| |[] ? ?]; reflexivity. Qed.

Lemma SFleb_zero_r (x : spec_float) :
  SFleb x (S754_zero false) = sf_zero x || sf_neg x.
Proof. destruct x as [[]|[]| |[] ? ?]; reflexivity. Qed.

Lemma SFleb_finite_pos (m1 m2 : positive) (e1 e2 : Z) :
  e1 < e2 \/ (e1 = e2 /\ Zpos m1 <= Zpos m2) ->
  SFleb (S754_finite false m1 e1) (S754_finite false m2 e2) = true.
Proof.
  intros H. unfold SFleb, SFcompare.
  destruct (Z.compare_spec e1 e2) as [E|L|G]; try reflexivity; try lia.
  rewrite Pos.compare_cont_spec. cbn [Pos.switch_Eq].
  destruct (Pos.compare_spec m1 m2); try reflexivity; lia.
Qed.

Lemma SFltb_finite_pos_false (m1 m2 : positive) (e1 e2 : Z) :
  SFltb (S754_finite false m1 e1) (S754_finite false m2 e2) = false ->
  e2 < e1 \/ (e1 = e2 /\ Zpos m2 <= Zpos m1).
Proof.
  unfold SFltb, SFcompare.
  destruct (Z.compare_spec e1 e2) as [E|L|G]; try discriminate; try lia.
  rewrite Pos.compare_cont_spec. cbn [Pos.switch_Eq].
  destruct (Pos.compare_spec m1 m2); try discriminate; lia.
Qed.

(** Rounding keeps the sign. *)
Lemma binary_round_not_neg (m : positive) (e : Z) :
  sf_neg (binary_round prec emax false m e) = false.
Proof.
  unfold binary_round, binary_round_aux.
  destruct (shl_align _ _ _) as [mz ez].
  destruct (shr_fexp _ _ _ _ _) as [mrs1 t1].
  destruct (shr_fexp _ _ _ _ _) as [mrs2 t2].
  destruct (shr_m mrs2); [reflexivity | | reflexivity].
  destruct (t2 <=? emax - prec); reflexivity.
Qed.

Lemma binary_normalize_not_neg (M e : Z) :
  0 <= M -> sf_neg (binary_normalize prec emax M e false) = false.
Proof.
  intros H. destruct M as [|p|p]; cbn [binary_normalize]; try lia.
  - reflexivity.
  - apply binary_round_not_neg.
Qed.

(** *** Addition and subtraction of non-negative numbers *)

Lemma SF64add_not_neg (x y : spec_float) :
  sf_neg x = false -> sf_neg y = false -> sf_neg (SF64add x y) = false.
Proof.
  destruct x as [[]|[]| |[] mx ex]; destruct y as [[]|[]| |[] my ey];
    try discriminate; try reflexivity.
  intros _ _. unfold SF64add, SFadd, cond_Zopp.
  apply binary_normalize_not_neg. lia.
Qed.

Lemma SF64add_ge (x y : spec_float) :
  valid_binary x = true -> valid_binary y = true ->
  sf_zero x || sf_pos x = true -> sf_pos y = true ->
  SFleb x (SF64add x y) = true /\ sf_pos (SF64add x y) = true.
Proof.
  destruct x as [[]|[]| |[] mx ex]; destruct y as [[]|[]| |[] my ey];
    try discriminate; try (intros; split; reflexivity).
  cbn [valid_binary]. intros Vx Vy _ _.
  apply bounded_inv in Vx as [Cx _]. apply bounded_inv in Vy as [Cy _].
  assert (Hex : -1074 <= ex) by (unfold fexp64 in Cx; lia).
  assert (Hey : -1074 <= ey) by (unfold fexp64 in Cy; lia).
  unfold SF64add, SFadd, cond_Zopp.
  set (ez := Z.min ex ey).
  assert (Hx := shl_align_fst mx ex ez ltac:(lia)).
  assert (Hy := shl_align_fst my ey ez ltac:(lia)).
  set (ax := fst (shl_align mx ex ez)) in *.
  set (ay := fst (shl_align my ey ez)) in *.
  change (Zpos ax + Zpos ay) with (Zpos (ax + ay)).
  cbn [binary_normalize]. unfold binary_round.
  rewrite fexp_fexp64.
  assert (HM : Zpos mx * 2 ^ (ex - ez) <= Zpos (ax + ay)) by lia.
  pose proof (Zdigits2_lower mx (ex - ez) (Zpos (ax + ay)) ltac:(lia) HM) as Hd.
  cbn [Zdigits2] in Hd.
  rewrite shl_align_id.
  2:{ transitivity ex; [lia|]. rewrite <- Cx at 1. apply fexp64_mono. lia. }
  destruct (binary_round_aux_ge mx ex (Zpos (ax + ay)) ez loc_Exact Cx ltac:(lia) HM)
    as (m3 & t2 & E & Hcmp).
  rewrite E. destruct (t2 <=? 971).
  - split; [apply SFleb_finite_pos; assumption | reflexivity].
  - split; reflexivity.
Qed.

Lemma SF64sub_not_neg (x y : spec_float) :
  valid_binary x = true -> valid_binary y = true ->
  sf_neg x = false ->
  SFleb y (S754_zero false) = false ->
  SFltb x y = false ->
  sf_neg (SF64sub x y) = false.
Proof.
  destruct x as [[]|[]| |[] mx ex]; destruct y as [[]|[]| |[] my ey];
    try discriminate; try reflexivity.
  cbn [valid_binary]. intros Vx Vy _ _ Hlt.
  apply bounded_inv in Vx as [Cx _]. apply bounded_inv in Vy as [Cy _].
  apply SFltb_finite_pos_false in Hlt.
  unfold SF64sub, SFsub, cond_Zopp.
  apply binary_normalize_not_neg.
  assert (ez : Z.min ex ey = ey) by lia. rewrite ez.
  rewrite !shl_align_fst by lia.
  replace (ey - ey) with 0 by lia. rewrite Z.pow_0_r, Z.mul_1_r.
  destruct Hlt as [Hlt | [-> Hm]].
  - pose proof (digits2_pos_bounds mx) as [Hlo _].
    pose proof (digits2_pos_bounds my) as [_ Hhi].
    assert (Hdx : Zpos (digits2_pos mx) = 53) by (unfold fexp64 in Cx, Cy; lia).
    assert (Hdy : Zpos (digits2_pos my) <= 53) by (unfold fexp64 in Cy; lia).
    rewrite Hdx in Hlo.
    assert (H53 : 2 ^ Zpos (digits2_pos my) <= 2 ^ 53) by (apply Z.pow_le_mono_r; lia).
    assert (2 ^ 1 <= 2 ^ (ex - ey)) by (apply Z.pow_le_mono_r; lia).
    change (2 ^ 1) with 2 in *. change (2 ^ (53 - 1)) with 4503599627370496 in Hlo.
    change (2 ^ 53) with 9007199254740992 in H53.
    nia.
  - rewrite Z.sub_diag, Z.pow_0_r. lia.
Qed.

(** Rounding a positive mantissa gives a positive number or infinity. *)
Lemma binary_round_pos (m : positive) (e : Z) :
  -1074 <= e -> sf_pos (binary_round prec emax false m e) = true.
Proof.
  intros He. unfold binary_round. rewrite fexp_fexp64.
  set (t := fexp64 (Zpos (digits2_pos m) + e)).
  assert (Ht : -1074 <= t) by (unfold t, fexp64; lia).
  assert (Hz : -1074 <= snd (shl_align m e t)).
  { unfold shl_align. destruct (t - e); cbn [snd]; lia. }
  destruct (shl_align m e t) as [mz ez]. cbn [snd] in Hz.
  destruct (binary_round_aux_pos false (Zpos mz) ez loc_Exact ltac:(lia) Hz)
    as (M2 & t2 & m3 & _ & _ & _ & _ & E).
  rewrite E. destruct (t2 <=? 971); reflexivity.
Qed.

Lemma SF64sub_nonneg (x y : spec_float) :
  valid_binary x = true -> valid_binary y = true ->
  sf_zero x || sf_pos x = true ->
  SFltb (S754_zero false) y = true ->
  SFltb y (S754_infinity false) = true ->
  SFltb x y = false ->
  sf_zero (SF64sub x y) || sf_pos (SF64sub x y) = true.
Proof.
  destruct x as [[]|[]| |[] mx ex]; destruct y as [[]|[]| |[] my ey];
    try discriminate; try reflexivity.
  cbn [valid_binary]. intros Vx Vy _ _ _ Hlt.
  apply bounded_inv in Vx as [Cx _]. apply bounded_inv in Vy as [Cy _].
  apply SFltb_finite_pos_false in Hlt.
  assert (Hey : -1074 <= ey) by (unfold fexp64 in Cy; lia).
  unfold SF64sub, SFsub, cond_Zopp.
  assert (ez : Z.min ex ey = ey) by lia. rewrite ez.
  assert (HM : 0 <= Zpos (fst (shl_align mx ex ey)) - Zpos (fst (shl_align my ey ey))).
  { rewrite !shl_align_fst by lia.
    replace (ey - ey) with 0 by lia. rewrite Z.pow_0_r, Z.mul_1_r.
    destruct Hlt as [Hlt | [-> Hm]].
    - pose proof (digits2_pos_bounds mx) as [Hlo _].
      pose proof (digits2_pos_bounds my) as [_ Hhi].
      assert (Hdx : Zpos (digits2_pos mx) = 53) by (unfold fexp64 in Cx, Cy; lia).
      assert (Hdy : Zpos (digits2_pos my) <= 53) by (unfold fexp64 in Cy; lia).
      rewrite Hdx in Hlo.
      assert (H53 : 2 ^ Zpos (digits2_pos my) <= 2 ^ 53) by (apply Z.pow_le_mono_r; lia).
      assert (2 ^ 1 <= 2 ^ (ex - ey)) by (apply Z.pow_le_mono_r; lia).
      change (2 ^ 1) with 2 in *. change (2 ^ (53 - 1)) with 4503599627370496 in Hlo.
      change (2 ^ 53) with 9007199254740992 in H53.
      nia.
    - rewrite Z.sub_diag, Z.pow_0_r. lia. }
  destruct (Zpos (fst (shl_align mx ex ey)) - Zpos (fst (shl_align my ey ey)))
    as [|M|M]; cbn [binary_normalize]; try lia.
  - reflexivity.
  - rewrite (binary_round_pos M ey Hey). apply orb_true_r.
Qed.

Lemma SF64sub_diag (s : bool) (m : positive) (e : Z) :
  SF64sub (S754_finite s m e) (S754_finite s m e) = S754_zero false.
Proof.
  unfold SF64sub, SFsub. rewrite Z.sub_diag. reflexivity.
Qed.

(** *** The same facts on primitive floats *)

Local Close Scope Z_scope.
Local Open Scope float_scope.

Lemma Prim2SF_zero : Prim2SF 0 = S754_zero false.
Proof. reflexivity. Qed.

Lemma Prim2SF_infinity : Prim2SF infinity = S754_infinity false.
Proof. reflexivity. Qed.

Lemma ltb_zero_r (x : float) : (x <? 0) = sf_neg (Prim2SF x).
Proof. rewrite ltb_spec, Prim2SF_zero. apply SFltb_zero_r. Qed.

Lemma ltb_zero_l (x : float) : (0 <? x) = sf_pos (Prim2SF x).
Proof. rewrite ltb_spec, Prim2SF_zero. apply SFltb_zero_l. Qed.

Lemma leb_zero_l (x : float) : (0 <=? x) = sf_zero (Prim2SF x) || sf_pos (Prim2SF x).
Proof. rewrite leb_spec, Prim2SF_zero. apply SFleb_zero_l. Qed.

Lemma leb_zero_r (x : float) : (x <=? 0) = sf_zero (Prim2SF x) || sf_neg (Prim2SF x).
Proof. rewrite leb_spec, Prim2SF_zero. apply SFleb_zero_r. Qed.

(** A sum of two numbers that are not negative is not negative. *)
Lemma add_not_neg (b a : float) :
  (b <? 0) = false -> (a <=? 0) = false -> (b + a <? 0) = false.
Proof.
  rewrite !ltb_zero_r, leb_zero_r, add_spec. intros Hb Ha.
  apply orb_false_iff in Ha as [_ Ha].
  apply SF64add_not_neg; assumption.
Qed.

(** Taking away a positive amount that does not exceed the balance leaves a
    balance that is not negative. *)
Lemma sub_not_neg (b a : float) :
  (b <? 0) = false -> (a <=? 0) = false -> (b <? a) = false ->
  (b - a <? 0) = false.
Proof.
  rewrite !ltb_zero_r, sub_spec. rewrite leb_spec, ltb_spec, Prim2SF_zero.
  intros Hb Ha Hlt.
  apply SF64sub_not_neg; auto using Prim2SF_valid.
Qed.

(** Adding a positive amount to a non-negative balance does not lower it. *)
Lemma add_pos_ge (b a : float) :
  (0 <=? b) = true -> (0 <? a) = true ->
  (b <=? b + a) = true /\ (0 <? b + a) = true.
Proof.
  rewrite leb_zero_l, !ltb_zero_l, leb_spec, add_spec. intros Hb Ha.
  apply SF64add_ge; auto using Prim2SF_valid.
Qed.

(** A positive number below infinity minus itself is [+0]. *)
Lemma sub_diag_finite (b : float) :
  (0 <? b) = true -> (b <? infinity) = true -> b - b = 0.
Proof.
  rewrite ltb_zero_l, ltb_spec, Prim2SF_infinity. intros Hp Hf.
  apply Prim2SF_inj. rewrite sub_spec, Prim2SF_zero.
  destruct (Prim2SF b) as [[]|[]| |[] m e]; try discriminate.
  apply SF64sub_diag.
Qed.

Lemma ltb_leb_false (b a : float) : (a <=? b) = true -> (b <? a) = false.
Proof.
  rewrite leb_spec, ltb_spec. unfold SFleb, SFltb.
  destruct (Prim2SF a) as [[]|[]| |[] ma ea], (Prim2SF b) as [[]|[]| |[] mb eb];
    cbn [SFcompare]; try discriminate; try reflexivity.
  - destruct (Z.compare_spec ea eb), (Z.compare_spec eb ea); try lia;
      try discriminate; try reflexivity.
    rewrite !Pos.compare_cont_spec. cbn [Pos.switch_Eq].
    rewrite (Pos.compare_antisym ma mb).
    destruct (Pos.compare ma mb); cbn; try discriminate; reflexivity.
  - destruct (Z.compare_spec ea eb), (Z.compare_spec eb ea); try lia;
      try discriminate; try reflexivity.
    rewrite !Pos.compare_cont_spec. cbn [Pos.switch_Eq].
    rewrite (Pos.compare_antisym ma mb).
    destruct (Pos.compare ma mb); cbn; try discriminate; reflexivity.
Qed.

Lemma pos_not_leb_zero (a : float) : (0 <? a) = true -> (a <=? 0) = false.
Proof.
  rewrite ltb_zero_l, leb_zero_r.
  destruct (Prim2SF a) as [[]|[]| |[] m e]; try discriminate; reflexivity.
Qed.

(** Above a non-negative number there are only positive numbers. *)
Lemma above_nonneg_pos (b a : float) :
  (0 <=? b) = true -> (b <? a) = true -> (0 <? a) = true.
Proof.
  rewrite leb_zero_l, ltb_zero_l, ltb_spec. unfold SFltb.
  destruct (Prim2SF b) as [[]|[]| |[] mb eb], (Prim2SF a) as [[]|[]| |[] ma ea];
    cbn; try discriminate; reflexivity.
Qed.

Lemma nonneg_not_neg (b : float) : (0 <=? b) = true -> (b <? 0) = false.
Proof.
  rewrite leb_zero_l, ltb_zero_r.
  destruct (Prim2SF b) as [[]|[]| |[] m e]; try discriminate; reflexivity.
Qed.

Lemma pos_nonneg (b : float) : (0 <? b) = true -> (0 <=? b) = true.
Proof.
  rewrite leb_zero_l, ltb_zero_l. intros ->. apply orb_true_r.
Qed.

Lemma not_leb_zero_pos (a : float) :
  (a <=? 0) = false -> finite a = true -> (0 <? a) = true.
Proof.
  unfold finite. rewrite leb_zero_r, ltb_zero_l, !ltb_spec.
  intros H1 H2. apply andb_true_iff in H2 as [H2 _]. revert H1 H2.
  destruct (Prim2SF a) as [[]|[]| |[] m e]; cbn; try discriminate; reflexivity.
Qed.

(** With a finite positive amount the sum is again a number, not below
    zero. *)
Lemma add_nonneg (b a : float) :
  (0 <=? b) = true -> (a <=? 0) = false -> finite a = true ->
  (0 <=? b + a) = true.
Proof.
  intros Hb Ha Hf. apply pos_nonneg.
  apply (add_pos_ge b a Hb). apply not_leb_zero_pos; assumption.
Qed.

(** With a finite positive amount within the balance the difference is
    again a number, not below zero. *)
Lemma sub_nonneg (b a : float) :
  (0 <=? b) = true -> (a <=? 0) = false -> finite a = true ->
  (b <? a) = false ->
  (0 <=? b - a) = true.
Proof.
  intros Hb Ha Hf Hlt.
  pose proof (not_leb_zero_pos a Ha Hf) as Hp.
  unfold finite in Hf. apply andb_true_iff in Hf as [_ Hf].
  revert Hb Hp Hf Hlt.
  rewrite !leb_zero_l, !ltb_spec, sub_spec, Prim2SF_zero, Prim2SF_infinity.
  intros Hb Hp Hf Hlt.
  apply SF64sub_nonneg; auto using Prim2SF_valid.
Qed.

End Binary64.

(** ** The ledger, case by case *)

Section LedgerFacts.

Variable float_of_str : string -> option float.

Local Open Scope float_scope.

Lemma deposit_cases (now : string) (v : pyval) (w : world) :
  deposit float_of_str now v w =
    match py_float float_of_str v with
    | Return a =>
        if a <=? 0 then (Return false, printed [invalid_deposit_line] w)
        else (Return true, deposited now a w)
    | Raise ValueError => (Return false, printed [invalid_input_line] w)
    | Raise e => (Raise e, w)
    | OutOfFuel => (OutOfFuel, w)
    end.
Proof.
  unfold deposit, try_except, bind, lift.
  destruct (py_float float_of_str v) as [a|e|]; [|destruct e; reflexivity|reflexivity].
  destruct (a <=? 0); [reflexivity|].
  cbn. unfold deposited. rewrite <- app_assoc. reflexivity.
Qed.

Lemma withdraw_cases (now : string) (v : pyval) (w : world) :
  withdraw float_of_str now v w =
    match py_float float_of_str v with
    | Return a =>
        if a <=? 0 then (Return false, printed [invalid_withdrawal_line] w)
        else if _balance (self w) <? a
             then (Return false, printed [insufficient_funds_line] w)
             else (Return true, withdrawn now a w)
    | Raise ValueError => (Return false, printed [invalid_input_line] w)
    | Raise e => (Raise e, w)
    | OutOfFuel => (OutOfFuel, w)
    end.
Proof.
  unfold withdraw, try_except, bind, lift.
  destruct (py_float float_of_str v) as [a|e|]; [|destruct e; reflexivity|reflexivity].
  destruct (a <=? 0); [reflexivity|].
  cbn. destruct (_balance (self w) <? a); [reflexivity|].
  cbn. unfold withdrawn. rewrite <- app_assoc. reflexivity.
Qed.

(** [float()] never runs out of fuel: it is not a loop. *)
Lemma py_float_fuel (v : pyval) : py_float float_of_str v <> OutOfFuel.
Proof.
  destruct v as [f|z|s|]; cbn; try discriminate.
  - destruct (float_of_int z); discriminate.
  - destruct (float_of_str s); discriminate.
Qed.

(** A call on the ledger always comes to an end. *)
Lemma run_call_fuel (c : call) (w : world) :
  fst (run_call float_of_str c w) <> OutOfFuel.
Proof.
  destruct c as [now v|now v]; cbn [run_call];
    [rewrite deposit_cases | rewrite withdraw_cases];
    pose proof (py_float_fuel v) as Hv;
    destruct (py_float float_of_str v) as [a|e|]; try contradiction.
  - destruct (a <=? 0); discriminate.
  - destruct e; discriminate.
  - destruct (a <=? 0); [discriminate|].
    destruct (_balance (self w) <? a); discriminate.
  - destruct e; discriminate.
Qed.

(** Only a call that returns [True] changes the object. *)
Lemma run_call_unchanged (c : call) (w w' : world) (r : result bool) :
  run_call float_of_str c w = (r, w') ->
  r <> Return true ->
  self w' = self w /\ tty w' = tty w.
Proof.
  destruct c as [now v|now v]; cbn [run_call];
    [rewrite deposit_cases | rewrite withdraw_cases];
    destruct (py_float float_of_str v) as [a|e|].
  - destruct (a <=? 0); intros [= <- <-] H; [split; reflexivity | congruence].
  - destruct e; intros [= <- <-] _; split; reflexivity.
  - intros [= <- <-] _; split; reflexivity.
  - destruct (a <=? 0); [intros [= <- <-] H; split; reflexivity|].
    destruct (_balance (self w) <? a); intros [= <- <-] H;
      [split; reflexivity | congruence].
  - destruct e; intros [= <- <-] _; split; reflexivity.
  - intros [= <- <-] _; split; reflexivity.
Qed.

(** One call keeps the balance from going below zero. *)
Lemma run_call_not_neg (c : call) (w : world) :
  (_balance (self w) <? 0) = false ->
  (_balance (self (snd (run_call float_of_str c w))) <? 0) = false.
Proof.
  intros Hb.
  destruct c as [now v|now v]; cbn [run_call];
    [rewrite deposit_cases | rewrite withdraw_cases];
    destruct (py_float float_of_str v) as [a|e|]; try (destruct e); try exact Hb.
  - destruct (a <=? 0) eqn:Ea; [exact Hb|].
    cbn. apply Binary64.add_not_neg; assumption.
  - destruct (a <=? 0) eqn:Ea; [exact Hb|].
    destruct (_balance (self w) <? a) eqn:Elt; [exact Hb|].
    cbn. apply Binary64.sub_not_neg; assumption.
Qed.

Lemma run_calls_not_neg (cs : list call) : forall w,
  (_balance (self w) <? 0) = false ->
  (_balance (self (snd (run_calls float_of_str cs w))) <? 0) = false.
Proof.
  induction cs as [|c cs IH]; intros w Hb; [exact Hb|].
  cbn [run_calls].
  pose proof (run_call_not_neg c w Hb) as H1.
  destruct (run_call float_of_str c w) as [r w1]. cbn [snd] in H1.
  specialize (IH w1 H1).
  destruct (run_calls float_of_str cs w1) as [rs w2]. exact IH.
Qed.

(** With finite amounts the balance also stays a number. *)
Lemma run_call_nonneg (c : call) (w : world) :
  finite_amount float_of_str c ->
  (0 <=? _balance (self w)) = true ->
  (0 <=? _balance (self (snd (run_call float_of_str c w)))) = true.
Proof.
  unfold finite_amount. intros Hf Hb.
  destruct c as [now v|now v]; cbn [run_call];
    [rewrite deposit_cases | rewrite withdraw_cases];
    destruct (py_float float_of_str v) as [a|e|]; try (destruct e); try exact Hb.
  - destruct (a <=? 0) eqn:Ea; [exact Hb|].
    cbn. apply Binary64.add_nonneg; assumption.
  - destruct (a <=? 0) eqn:Ea; [exact Hb|].
    destruct (_balance (self w) <? a) eqn:Elt; [exact Hb|].
    cbn. apply Binary64.sub_nonneg; assumption.
Qed.

Lemma run_calls_nonneg (cs : list call) : forall w,
  Forall (finite_amount float_of_str) cs ->
  (0 <=? _balance (self w)) = true ->
  (0 <=? _balance (self (snd (run_calls float_of_str cs w)))) = true.
Proof.
  induction cs as [|c cs IH]; intros w Hf Hb; [exact Hb|].
  inversion Hf as [|x l Hc Hcs]; subst.
  cbn [run_calls].
  pose proof (run_call_nonneg c w Hc Hb) as H1.
  destruct (run_call float_of_str c w) as [r w1]. cbn [snd] in H1.
  specialize (IH w1 Hcs H1).
  destruct (run_calls float_of_str cs w1) as [rs w2]. exact IH.
Qed.

(** A run of positive deposits: every call returns [True], the balance is
    the running sum and the history grows by one entry per deposit. *)
Lemma run_deposits (ds : list (string * float)) : forall w,
  Forall (fun d => (0 <? snd d) = true) ds ->
  exists w',
    run_calls float_of_str (map deposit_of ds) w =
      (map (fun _ => Return true) ds, w') /\
    _balance (self w') = fold_left PrimFloat.add (map snd ds) (_balance (self w)) /\
    _transaction_history (self w') =
      (_transaction_history (self w) ++ deposit_log (_balance (self w)) ds)%list.
Proof.
  induction ds as [|[now d] ds IH]; intros w Hpos.
  - exists w. cbn. rewrite app_nil_r. auto.
  - inversion Hpos as [|x l Hd Hds]; subst. cbn [snd] in Hd.
    cbn [map run_calls deposit_of run_call fst snd].
    rewrite deposit_cases. cbn [py_float].
    rewrite (Binary64.pos_not_leb_zero d Hd).
    destruct (IH (deposited now d w) Hds) as (w' & E & Hb & Hh).
    rewrite E. exists w'. split; [reflexivity|].
    split; [exact Hb|].
    rewrite Hh. cbn. rewrite <- app_assoc. reflexivity.
Qed.

Lemma deposit_log_balances (ds : list (string * float)) : forall b,
  map tx_balance (deposit_log b ds) = partial_sums b (map snd ds).
Proof.
  induction ds as [|d ds IH]; intros b; cbn; [reflexivity|].
  rewrite IH. reflexivity.
Qed.

Lemma deposit_log_amounts (ds : list (string * float)) : forall b,
  map tx_amount (deposit_log b ds) = map snd ds.
Proof.
  induction ds as [|d ds IH]; intros b; cbn; [reflexivity|].
  rewrite IH. reflexivity.
Qed.

Lemma deposit_log_types (ds : list (string * float)) : forall b,
  Forall (fun t => tx_type t = "deposit"%string) (deposit_log b ds).
Proof.
  induction ds as [|d ds IH]; intros b; cbn; constructor; auto.
Qed.

Lemma deposit_log_length (ds : list (string * float)) : forall b,
  List.length (deposit_log b ds) = List.length ds.
Proof.
  induction ds as [|d ds IH]; intros b; cbn; [reflexivity|].
  rewrite IH. reflexivity.
Qed.

Lemma partial_sums_nondecreasing (ds : list float) : forall b,
  (0 <=? b) = true ->
  Forall (fun d => (0 <? d) = true) ds ->
  nondecreasing_from b (partial_sums b ds).
Proof.
  induction ds as [|d ds IH]; intros b Hb Hpos; cbn; [exact I|].
  inversion Hpos as [|x l Hd Hds]; subst.
  destruct (Binary64.add_pos_ge b d Hb Hd) as [Hle Hsum].
  split; [exact Hle|].
  apply IH; [apply Binary64.pos_nonneg; exact Hsum | exact Hds].
Qed.

End LedgerFacts.

(** ** Authentication, attempt by attempt *)

Section AuthFacts.

Variable a : ATMSimulator.

Local Open Scope Z_scope.

Lemma attempt_right (k : Z) (out : list line) (rest : list tty_event) :
  attempt k {| self := a; stdout := out; tty := Typed (_pin a) :: rest |} =
    (Return (inl true),
     {| self := a; stdout := out ++ [auth_success_line]; tty := rest |}).
Proof.
  unfold attempt, try_except, bind, getpass, attr. cbn.
  rewrite String.eqb_refl. reflexivity.
Qed.

Lemma attempt_wrong (k : Z) (s : string) (out : list line) (rest : list tty_event) :
  s <> _pin a ->
  attempt k {| self := a; stdout := out; tty := Typed s :: rest |} =
    (Return (inr (k + 1)),
     {| self := a;
        stdout := out ++ [invalid_pin_line (_max_attempts a - (k + 1))];
        tty := rest |}).
Proof.
  intros H. unfold attempt, try_except, bind, getpass, attr. cbn.
  apply String.eqb_neq in H. rewrite H. reflexivity.
Qed.

Lemma attempt_ctrlc (k : Z) (out : list line) (rest : list tty_event) :
  attempt k {| self := a; stdout := out; tty := CtrlC :: rest |} =
    (Return (inl false),
     {| self := a; stdout := out ++ [cancelled_line]; tty := rest |}).
Proof. reflexivity. Qed.

(** The loop eats wrong PINs one by one while attempts remain. *)
Lemma authenticate_loop_wrong (wrong : list string) (rest : list tty_event) (fuel : nat) :
  forall (k : Z) (out : list line),
  Forall (fun s => s <> _pin a) wrong ->
  k + Z.of_nat (List.length wrong) <= Z.max k (_max_attempts a) ->
  authenticate_loop (List.length wrong + fuel) k
    {| self := a; stdout := out; tty := map Typed wrong ++ rest |} =
  authenticate_loop fuel (k + Z.of_nat (List.length wrong))
    {| self := a;
       stdout := out ++ wrong_pin_lines (_max_attempts a) k (List.length wrong);
       tty := rest |}.
Proof.
  induction wrong as [|s wrong IH]; intros k out Hw Hk.
  - cbn. rewrite Z.add_0_r, app_nil_r. reflexivity.
  - inversion Hw as [|x l Hs Hw']; subst.
    cbn [List.length] in *. rewrite Nat2Z.inj_succ in *.
    cbn [Nat.add authenticate_loop map app].
    unfold bind at 1, attr at 1. cbn [self].
    assert (Hlt : (k <? _max_attempts a) = true) by (apply Z.ltb_lt; lia).
    rewrite Hlt. unfold bind at 1. rewrite attempt_wrong by assumption.
    rewrite IH by (try assumption; lia).
    cbn [wrong_pin_lines]. rewrite <- app_assoc. cbn [app].
    f_equal. lia.
Qed.

Lemma authenticate_fuel_split (n : nat) :
  Z.of_nat n <= Z.max 0 (_max_attempts a) ->
  authenticate_fuel a = (n + S (Z.to_nat (_max_attempts a) - n))%nat.
Proof. unfold authenticate_fuel. lia. Qed.

(** The right PIN after [wrong] ones, with attempts left. *)
Lemma authenticate_counting_right (wrong : list string) (out : list line)
    (rest : list tty_event) :
  Forall (fun s => s <> _pin a) wrong ->
  Z.of_nat (List.length wrong) < _max_attempts a ->
  authenticate_counting
    {| self := a; stdout := out; tty := map Typed wrong ++ Typed (_pin a) :: rest |} =
  (Return (true, Z.of_nat (List.length wrong)),
   {| self := a;
      stdout := out ++ wrong_pin_lines (_max_attempts a) 0 (List.length wrong)
                    ++ [auth_success_line];
      tty := rest |}).
Proof.
  intros Hw Hlen. unfold authenticate_counting. cbn [self].
  rewrite (authenticate_fuel_split (List.length wrong)) by lia.
  rewrite authenticate_loop_wrong by (try assumption; lia).
  cbn [authenticate_loop Z.add].
  unfold bind at 1, attr at 1. cbn [self].
  assert (Hlt : (Z.of_nat (List.length wrong) <? _max_attempts a) = true)
    by (apply Z.ltb_lt; lia).
  rewrite Hlt. unfold bind at 1. rewrite attempt_right.
  cbn. rewrite <- app_assoc. reflexivity.
Qed.

(** Ctrl-C after [wrong] PINs, with attempts left. *)
Lemma authenticate_counting_ctrlc (wrong : list string) (out : list line)
    (rest : list tty_event) :
  Forall (fun s => s <> _pin a) wrong ->
  Z.of_nat (List.length wrong) < _max_attempts a ->
  authenticate_counting
    {| self := a; stdout := out; tty := map Typed wrong ++ CtrlC :: rest |} =
  (Return (false, Z.of_nat (List.length wrong)),
   {| self := a;
      stdout := out ++ wrong_pin_lines (_max_attempts a) 0 (List.length wrong)
                    ++ [cancelled_line];
      tty := rest |}).
Proof.
  intros Hw Hlen. unfold authenticate_counting. cbn [self].
  rewrite (authenticate_fuel_split (List.length wrong)) by lia.
  rewrite authenticate_loop_wrong by (try assumption; lia).
  cbn [authenticate_loop Z.add].
  unfold bind at 1, attr at 1. cbn [self].
  assert (Hlt : (Z.of_nat (List.length wrong) <? _max_attempts a) = true)
    by (apply Z.ltb_lt; lia).
  rewrite Hlt. unfold bind at 1. rewrite attempt_ctrlc.
  cbn. rewrite <- app_assoc. reflexivity.
Qed.

(** As many wrong PINs as there are attempts. *)
Lemma authenticate_counting_locked (wrong : list string) (out : list line)
    (rest : list tty_event) :
  Forall (fun s => s <> _pin a) wrong ->
  List.length wrong = Z.to_nat (_max_attempts a) ->
  authenticate_counting
    {| self := a; stdout := out; tty := map Typed wrong ++ rest |} =
  (Return (false, Z.of_nat (List.length wrong)),
   {| self := a;
      stdout := out ++ wrong_pin_lines (_max_attempts a) 0 (List.length wrong)
                    ++ [locked_line];
      tty := rest |}).
Proof.
  intros Hw Hlen. unfold authenticate_counting. cbn [self].
  rewrite (authenticate_fuel_split (List.length wrong)) by lia.
  rewrite authenticate_loop_wrong by (try assumption; lia).
  cbn [authenticate_loop Z.add].
  unfold bind at 1, attr at 1. cbn [self].
  assert (Hlt : (Z.of_nat (List.length wrong) <? _max_attempts a) = false)
    by (apply Z.ltb_ge; lia).
  rewrite Hlt. cbn. rewrite <- app_assoc. reflexivity.
Qed.

End AuthFacts.

Lemma authenticate_of_counting (w w' : world) (b : bool) (n : Z) :
  authenticate_counting w = (Return (b, n), w') ->
  authenticate w = (Return b, w').
Proof. unfold authenticate, bind. intros ->. reflexivity. Qed.

Lemma attempt_self (k : Z) (w : world) :
  self (snd (attempt k w)) = self w.
Proof.
  destruct w as [a out events].
  destruct events as [|[s|] rest]; [reflexivity | | reflexivity].
  unfold attempt, try_except, bind, getpass, attr. cbn.
  destruct (String.eqb s (_pin a)); reflexivity.
Qed.

(** The loop ends with the fuel it is given: it never runs out. *)
Lemma authenticate_loop_fuel (fuel : nat) : forall (k : Z) (w : world),
  (Z.to_nat (_max_attempts (self w) - k) < fuel)%nat ->
  fst (authenticate_loop fuel k w) <> OutOfFuel.
Proof.
  induction fuel as [|fuel IH]; intros k w Hf; [lia|].
  cbn [authenticate_loop]. unfold bind at 1, attr at 1.
  destruct (Z.ltb_spec k (_max_attempts (self w))) as [Hlt|Hge]; [|discriminate].
  unfold bind at 1.
  pose proof (attempt_self k w) as Hs.
  assert (Hk : match attempt k w with
               | (Return (inr k'), _) => k' = (k + 1)%Z
               | (OutOfFuel, _) => False
               | _ => True
               end).
  { destruct w as [a out events].
    destruct events as [|[s|] rest]; [exact I | | exact I].
    unfold attempt, try_except, bind, getpass, attr. cbn.
    destruct (String.eqb s (_pin a)); [exact I | reflexivity]. }
  destruct (attempt k w) as [[[b|k']|e|] w1]; cbn [snd] in Hs;
    try discriminate; [|contradiction].
  subst k'. apply IH. rewrite Hs. lia.
Qed.

Lemma authenticate_terminates (w : world) : fst (authenticate w) <> OutOfFuel.
Proof.
  unfold authenticate, bind.
  pose proof (authenticate_loop_fuel (authenticate_fuel (self w)) 0 w) as H.
  unfold authenticate_counting.
  destruct (authenticate_loop (authenticate_fuel (self w)) 0 w) as [[r|e|] w'];
    try discriminate.
  cbn [fst] in H. intros _. apply H; [|reflexivity].
  unfold authenticate_fuel. lia.
Qed.

(** * Properties of the ledger and of authentication *)

Local Open Scope float_scope.

(** ** Withdrawals against the balance *)

(** C1.  For an amount [a] that [float()] gives: if [a] is positive and at
    most the balance, [withdraw] returns [True], the new balance is the old
    one minus [a] (the binary64 difference) and one withdrawal of [a] is
    logged; if moreover [a] is the whole of a finite balance, the new balance
    is exactly zero.  If [a] exceeds a non-negative balance, [withdraw]
    returns [False] after printing "Insufficient funds!" and the object is
    unchanged. *)
Theorem withdraw_against_balance
    (float_of_str : string -> option float) (now : string) (v : pyval)
    (a : float) (w : world) :
  py_float float_of_str v = Return a ->
  let b := _balance (self w) in
  let r := withdraw float_of_str now v w in
  ((0 <? a) = true -> (a <=? b) = true ->
     fst r = Return true /\
     _balance (self (snd r)) = b - a /\
     _transaction_history (self (snd r)) =
       (_transaction_history (self w) ++
        [{| tx_type := "withdrawal"; tx_amount := a;
            tx_balance := b - a; tx_timestamp := now |}])%list /\
     (a = b -> (b <? infinity) = true -> _balance (self (snd r)) = 0)) /\
  ((0 <=? b) = true -> (b <? a) = true ->
     refused insufficient_funds_line w r).
Proof.
  intros Hv b r. subst r. rewrite withdraw_cases, Hv. split.
  - intros Hpos Hle.
    rewrite (Binary64.pos_not_leb_zero a Hpos).
    fold b. rewrite (Binary64.ltb_leb_false b a Hle).
    cbn. repeat split.
    intros -> Hfin. apply Binary64.sub_diag_finite; assumption.
  - intros Hb Hlt.
    rewrite (Binary64.pos_not_leb_zero a (Binary64.above_nonneg_pos b a Hb Hlt)).
    fold b. rewrite Hlt. repeat split.
Qed.

Lemma withdraw_against_balance_witness :
  (fst (withdraw PyFloatStr.float_of_str "12:00" (PyFloat 1500)
          (fresh_world (__init__ 1500 "1234" 3) [])) = Return true /\
   _balance (self (snd (withdraw PyFloatStr.float_of_str "12:00" (PyFloat 1500)
          (fresh_world (__init__ 1500 "1234" 3) [])))) = 0) /\
  refused insufficient_funds_line (fresh_world (__init__ 1500 "1234" 3) [])
    (withdraw PyFloatStr.float_of_str "12:00" (PyStr "2000.00")
       (fresh_world (__init__ 1500 "1234" 3) [])).
Proof.
  split.
  - destruct (withdraw_against_balance PyFloatStr.float_of_str "12:00"
                (PyFloat 1500) 1500 (fresh_world (__init__ 1500 "1234" 3) [])
                eq_refl) as [H _].
    destruct (H eq_refl eq_refl) as (H1 & _ & _ & H4).
    split; [exact H1 | exact (H4 eq_refl eq_refl)].
  - destruct (withdraw_against_balance PyFloatStr.float_of_str "12:00"
                (PyStr "2000.00") 2000 (fresh_world (__init__ 1500 "1234" 3) [])
                eq_refl) as [_ H].
    exact (H eq_refl eq_refl).
Defined.

(** ** Amounts that are not positive *)

(** C2, as the code has it.  An amount that is zero or negative, minus
    infinity included, is turned down by [deposit] and by [withdraw] with the
    invalid-amount line, and nothing is logged; so are [deposit(0)],
    [deposit(-5)], [withdraw(0)] and [withdraw(-1)].  A positive amount is
    never turned down by [deposit], be it infinite. *)
Theorem nonpositive_amount_refused
    (float_of_str : string -> option float) (now : string) (w : world) :
  (forall v a, py_float float_of_str v = Return a -> (a <=? 0) = true ->
     refused invalid_deposit_line w (deposit float_of_str now v w) /\
     refused invalid_withdrawal_line w (withdraw float_of_str now v w)) /\
  refused invalid_deposit_line w (deposit float_of_str now (PyInt 0) w) /\
  refused invalid_deposit_line w (deposit float_of_str now (PyInt (-5)) w) /\
  refused invalid_withdrawal_line w (withdraw float_of_str now (PyInt 0) w) /\
  refused invalid_withdrawal_line w (withdraw float_of_str now (PyInt (-1)) w) /\
  (forall v a, py_float float_of_str v = Return a -> (0 <? a) = true ->
     fst (deposit float_of_str now v w) = Return true).
Proof.
  assert (H : forall v a, py_float float_of_str v = Return a -> (a <=? 0) = true ->
     refused invalid_deposit_line w (deposit float_of_str now v w) /\
     refused invalid_withdrawal_line w (withdraw float_of_str now v w)).
  { intros v a Hv Ha. rewrite deposit_cases, withdraw_cases, Hv, Ha.
    split; repeat split. }
  split; [exact H|].
  split; [exact (proj1 (H (PyInt 0) 0 eq_refl eq_refl))|].
  split; [exact (proj1 (H (PyInt (-5)) (-5) eq_refl eq_refl))|].
  split; [exact (proj2 (H (PyInt 0) 0 eq_refl eq_refl))|].
  split; [exact (proj2 (H (PyInt (-1)) (-1) eq_refl eq_refl))|].
  intros v a Hv Ha. rewrite deposit_cases, Hv, (Binary64.pos_not_leb_zero a Ha).
  reflexivity.
Qed.

Lemma nonpositive_amount_refused_witness :
  refused invalid_deposit_line (fresh_world default_atm [])
    (deposit PyFloatStr.float_of_str "12:00" (PyStr "-0.01") (fresh_world default_atm [])) /\
  refused invalid_withdrawal_line (fresh_world default_atm [])
    (withdraw PyFloatStr.float_of_str "12:00" (PyFloat neg_infinity) (fresh_world default_atm [])) /\
  fst (deposit PyFloatStr.float_of_str "12:00" (PyFloat infinity) (fresh_world default_atm []))
    = Return true.
Proof.
  pose proof (nonpositive_amount_refused PyFloatStr.float_of_str "12:00"
                (fresh_world default_atm [])) as (H & _ & _ & _ & _ & Hpos).
  split; [exact (proj1 (H (PyStr "-0.01") (-0.01) eq_refl eq_refl))|].
  split; [exact (proj2 (H (PyFloat neg_infinity) neg_infinity eq_refl eq_refl))|].
  exact (Hpos (PyFloat infinity) infinity eq_refl eq_refl).
Defined.

(** C2 as stated fails: positive infinity is not a finite positive number,
    yet [deposit] accepts it, returns [True] and logs a transaction. *)
Lemma deposit_infinity_accepted :
  (infinity <? infinity) = false /\
  fst (deposit PyFloatStr.float_of_str "12:00" (PyFloat infinity)
         (fresh_world default_atm [])) = Return true /\
  _transaction_history
    (self (snd (deposit PyFloatStr.float_of_str "12:00" (PyFloat infinity)
                  (fresh_world default_atm [])))) =
    [{| tx_type := "deposit"; tx_amount := infinity;
        tx_balance := infinity; tx_timestamp := "12:00" |}] /\
  ~ refused invalid_deposit_line (fresh_world default_atm [])
      (deposit PyFloatStr.float_of_str "12:00" (PyFloat infinity)
         (fresh_world default_atm [])).
Proof.
  repeat split. intros (H & _). discriminate H.
Qed.

(** ** Runs of deposits *)

(** C3, as the code has it.  Positive deposits [d1 .. dn] on a fresh ledger
    of float balance [b0] all return [True]; the balance ends at
    [((b0 + d1) + d2) + ... + dn], each addition rounded to binary64; the history has exactly [n] entries, all deposits,
    with the amounts in order, and their balances are the partial sums
    [b0 + d1], [b0 + d1 + d2], ...; for a non-negative [b0] each of these is
    at least the one before it. *)
Theorem deposits_accumulate
    (float_of_str : string -> option float) (b0 : float) (pin : string)
    (max_attempts : Z) (events : list tty_event) (ds : list (string * float)) :
  Forall (fun d => (0 <? snd d) = true) ds ->
  let r := run_calls float_of_str (map deposit_of ds)
             (fresh_world (__init__ b0 pin max_attempts) events) in
  let history := _transaction_history (self (snd r)) in
  fst r = map (fun _ => Return true) ds /\
  _balance (self (snd r)) = fold_left PrimFloat.add (map snd ds) b0 /\
  List.length history = List.length ds /\
  map tx_balance history = partial_sums b0 (map snd ds) /\
  map tx_amount history = map snd ds /\
  Forall (fun t => tx_type t = "deposit"%string) history /\
  ((0 <=? b0) = true -> nondecreasing_from b0 (map tx_balance history)).
Proof.
  intros Hpos r history.
  destruct (run_deposits float_of_str ds
              (fresh_world (__init__ b0 pin max_attempts) events) Hpos)
    as (w' & E & Hb & Hh).
  subst history r. rewrite E. cbn [fst snd]. cbn [fresh_world __init__ self _balance
    _transaction_history app] in Hb, Hh.
  rewrite Hh.
  split; [reflexivity|]. split; [exact Hb|].
  split; [apply deposit_log_length|].
  split; [apply deposit_log_balances|].
  split; [apply deposit_log_amounts|].
  split; [apply deposit_log_types|].
  intros Hb0. rewrite deposit_log_balances.
  apply partial_sums_nondecreasing; [exact Hb0|].
  clear -Hpos. induction Hpos; cbn; constructor; auto.
Qed.

Lemma deposits_accumulate_witness :
  _balance (self (snd (run_calls PyFloatStr.float_of_str
     (map deposit_of [("09:00"%string, 500); ("09:05"%string, 0.1); ("09:10"%string, 0.2)])
     (fresh_world (__init__ 1000 "1234" 3) [])))) = 1000 + 500 + 0.1 + 0.2 /\
  map tx_balance (_transaction_history (self (snd (run_calls PyFloatStr.float_of_str
     (map deposit_of [("09:00"%string, 500); ("09:05"%string, 0.1); ("09:10"%string, 0.2)])
     (fresh_world (__init__ 1000 "1234" 3) []))))) =
    [1000 + 500; 1000 + 500 + 0.1; 1000 + 500 + 0.1 + 0.2] /\
  nondecreasing_from 1000
    (map tx_balance (_transaction_history (self (snd (run_calls PyFloatStr.float_of_str
       (map deposit_of [("09:00"%string, 500); ("09:05"%string, 0.1); ("09:10"%string, 0.2)])
       (fresh_world (__init__ 1000 "1234" 3) [])))))).
Proof.
  assert (Hpos : Forall (fun d : string * float => (0 <? snd d) = true)
            [("09:00"%string, 500); ("09:05"%string, 0.1); ("09:10"%string, 0.2)])
    by (repeat constructor).
  destruct (deposits_accumulate PyFloatStr.float_of_str 1000 "1234" 3 []
              [("09:00"%string, 500); ("09:05"%string, 0.1); ("09:10"%string, 0.2)] Hpos)
    as (_ & Hb & _ & Hp & _ & _ & Hm).
  split; [exact Hb|]. split; [exact Hp|]. exact (Hm eq_refl).
Defined.

(** C3 as stated fails: the balance is not [b0 + sum(di)].  From 1000,
    the deposits 0.1 and 0.2 are both accepted and leave
    1000.3000000000001, while [1000 + sum([0.1, 0.2])] is 1000.3. *)
Lemma deposits_sum_differs :
  Forall (fun d : string * float => (0 <? snd d) = true)
    [("09:00"%string, 0.1); ("09:05"%string, 0.2)] /\
  fst (run_calls PyFloatStr.float_of_str
         (map deposit_of [("09:00"%string, 0.1); ("09:05"%string, 0.2)])
         (fresh_world (__init__ 1000 "1234" 3) [])) = [Return true; Return true] /\
  _balance (self (snd (run_calls PyFloatStr.float_of_str
         (map deposit_of [("09:00"%string, 0.1); ("09:05"%string, 0.2)])
         (fresh_world (__init__ 1000 "1234" 3) [])))) = 1000.3000000000001 /\
  1000 + float_sum [0.1; 0.2] = 1000.3 /\
  (1000.3000000000001 =? 1000.3) = false.
Proof. repeat split; repeat constructor. Qed.

(** ** The balance never goes below zero *)

(** C4.  From a ledger whose balance is non-negative, whatever deposit and
    withdraw calls follow, with whatever arguments and whether they return
    [True], return [False] or raise, the balance is never negative; and as
    long as the amounts are finite it stays a number that is at least
    zero. *)
Theorem balance_never_negative
    (float_of_str : string -> option float) (w : world) (cs : list call) :
  (0 <=? _balance (self w)) = true ->
  (_balance (self (snd (run_calls float_of_str cs w))) <? 0) = false /\
  (Forall (finite_amount float_of_str) cs ->
   (0 <=? _balance (self (snd (run_calls float_of_str cs w)))) = true).
Proof.
  intros Hb. split.
  - apply run_calls_not_neg, Binary64.nonneg_not_neg, Hb.
  - intros Hf. apply run_calls_nonneg; assumption.
Qed.

Lemma balance_never_negative_witness :
  (_balance (self (snd (run_calls PyFloatStr.float_of_str
      [Deposit "09:00" (PyStr "500.00"); Withdraw "09:05" (PyInt 2000);
       Withdraw "09:10" (PyFloat 1500); Withdraw "09:15" (PyStr "abc");
       Deposit "09:20" PyNone; Withdraw "09:25" (PyFloat (-3))]
      (fresh_world default_atm [])))) <? 0) = false /\
  (0 <=? _balance (self (snd (run_calls PyFloatStr.float_of_str
      [Deposit "09:00" (PyStr "500.00"); Withdraw "09:05" (PyInt 2000);
       Withdraw "09:10" (PyFloat 1500); Withdraw "09:15" (PyStr "abc");
       Deposit "09:20" PyNone; Withdraw "09:25" (PyFloat (-3))]
      (fresh_world default_atm []))))) = true.
Proof.
  destruct (balance_never_negative PyFloatStr.float_of_str (fresh_world default_atm [])
              [Deposit "09:00" (PyStr "500.00"); Withdraw "09:05" (PyInt 2000);
               Withdraw "09:10" (PyFloat 1500); Withdraw "09:15" (PyStr "abc");
               Deposit "09:20" PyNone; Withdraw "09:25" (PyFloat (-3))]
              eq_refl) as [H1 H2].
  split; [exact H1|].
  apply H2. repeat constructor.
Defined.

(** ** Rejected calls change nothing *)

(** C5.  Whenever [deposit] or [withdraw] returns [False], for an invalid
    amount, insufficient funds or input [float()] does not parse, the object
    is exactly as before the call, balance and history included: the
    checks come before any change. *)
Theorem rejected_call_changes_nothing
    (float_of_str : string -> option float) (c : call) (w w' : world) :
  run_call float_of_str c w = (Return false, w') ->
  self w' = self w /\
  _balance (self w') = _balance (self w) /\
  _transaction_history (self w') = _transaction_history (self w).
Proof.
  intros E.
  destruct (run_call_unchanged float_of_str c w w' (Return false) E) as [Hs _];
    [discriminate|].
  rewrite Hs. auto.
Qed.

Lemma rejected_call_changes_nothing_witness :
  self (printed [insufficient_funds_line] (fresh_world default_atm [])) = default_atm /\
  _balance (self (printed [insufficient_funds_line] (fresh_world default_atm []))) = 1000 /\
  _transaction_history
    (self (printed [insufficient_funds_line] (fresh_world default_atm []))) = [].
Proof.
  exact (rejected_call_changes_nothing PyFloatStr.float_of_str
           (Withdraw "09:00" (PyFloat 2000)) (fresh_world default_atm [])
           (printed [insufficient_funds_line] (fresh_world default_atm []))
           eq_refl).
Defined.

(** ** Binary floats, not decimals *)

(** C8, as the code has it.  Amounts are stored and compared as the binary64
    numbers [float()] gives, with no rounding to two decimals.  The checks
    are binary64 comparisons: a deposit is accepted exactly when
    [amount <= 0] is false, a withdrawal exactly when moreover
    [amount > balance] is false.  An accepted deposit leaves the binary64
    sum of balance and amount, an accepted withdrawal the binary64
    difference.  Values like 0.10 + 0.20 do not come back exactly: from
    1000, depositing 0.10 and 0.20 and withdrawing 0.30 leaves
    1000.0000000000001. *)
Theorem balance_is_binary64
    (float_of_str : string -> option float) (now : string) (v : pyval)
    (a : float) (w : world) :
  py_float float_of_str v = Return a ->
  (fst (deposit float_of_str now v w) = Return true <-> (a <=? 0) = false) /\
  (fst (withdraw float_of_str now v w) = Return true <->
     (a <=? 0) = false /\ (_balance (self w) <? a) = false) /\
  (fst (deposit float_of_str now v w) = Return true ->
     _balance (self (snd (deposit float_of_str now v w))) = _balance (self w) + a) /\
  (fst (withdraw float_of_str now v w) = Return true ->
     _balance (self (snd (withdraw float_of_str now v w))) = _balance (self w) - a) /\
  _balance (self (snd (run_calls float_of_str
     [Deposit now (PyFloat 0.1); Deposit now (PyFloat 0.2); Withdraw now (PyFloat 0.3)]
     (fresh_world default_atm [])))) = 1000.0000000000001.
Proof.
  intros Hv. rewrite deposit_cases, withdraw_cases, Hv.
  split; [|split; [|split; [|split]]].
  - destruct (a <=? 0); split; (discriminate || reflexivity).
  - destruct (a <=? 0); [split; [discriminate | intros [H _]; discriminate]|].
    destruct (_balance (self w) <? a);
      [split; [discriminate | intros [_ H]; discriminate] | split; auto].
  - destruct (a <=? 0); [discriminate | reflexivity].
  - destruct (a <=? 0); [discriminate|].
    destruct (_balance (self w) <? a); [discriminate | reflexivity].
  - reflexivity.
Qed.

Lemma balance_is_binary64_witness :
  _balance (self (snd (deposit PyFloatStr.float_of_str "09:00" (PyStr "0.10")
                         (fresh_world default_atm [])))) = 1000 + 0.1 /\
  _balance (self (snd (withdraw PyFloatStr.float_of_str "09:00" (PyStr "0.30")
                         (fresh_world default_atm [])))) = 1000 - 0.3.
Proof.
  destruct (balance_is_binary64 PyFloatStr.float_of_str "09:00" (PyStr "0.10") 0.1
              (fresh_world default_atm []) eq_refl) as (_ & _ & Hd & _ & _).
  destruct (balance_is_binary64 PyFloatStr.float_of_str "09:00" (PyStr "0.30") 0.3
              (fresh_world default_atm []) eq_refl) as (_ & _ & _ & Hw & _).
  split; [exact (Hd eq_refl) | exact (Hw eq_refl)].
Defined.

(** C8 as stated fails: from the default balance of 1000, depositing 0.10
    and 0.20 and then withdrawing 0.30, all three accepted, leaves
    1000.0000000000001 and not 1000; from a balance of 0 it leaves
    2^-54 and not 0. *)
Lemma decimal_round_trip_fails :
  fst (run_calls PyFloatStr.float_of_str
         [Deposit "09:00" (PyStr "0.10"); Deposit "09:05" (PyStr "0.20");
          Withdraw "09:10" (PyStr "0.30")]
         (fresh_world default_atm [])) = [Return true; Return true; Return true] /\
  _balance (self (snd (run_calls PyFloatStr.float_of_str
         [Deposit "09:00" (PyStr "0.10"); Deposit "09:05" (PyStr "0.20");
          Withdraw "09:10" (PyStr "0.30")]
         (fresh_world default_atm [])))) = 1000.0000000000001 /\
  (1000.0000000000001 =? 1000) = false /\
  _balance (self (snd (run_calls PyFloatStr.float_of_str
         [Deposit "09:00" (PyFloat 0.1); Deposit "09:05" (PyFloat 0.2);
          Withdraw "09:10" (PyFloat 0.3)]
         (fresh_world (__init__ 0 "1234" 3) [])))) = 5.5511151231257827e-17 /\
  (5.5511151231257827e-17 =? 0) = false.
Proof. repeat split. Qed.

(** ** Authentication *)

(** C6.  With three attempts allowed: the first credential that equals the
    stored PIN, presented while attempts remain, makes [authenticate] return
    [True] at once, the terminal events after it left untouched; three wrong
    credentials in a row make it print the lock-out line and return [False],
    again leaving what follows on the terminal untouched. *)
Theorem authenticate_three_attempts
    (a : ATMSimulator) (out : list line) (wrong : list string)
    (rest : list tty_event) :
  _max_attempts a = 3%Z ->
  Forall (fun s => s <> _pin a) wrong ->
  ((List.length wrong < 3)%nat ->
     authenticate
       {| self := a; stdout := out; tty := map Typed wrong ++ Typed (_pin a) :: rest |} =
     (Return true,
      {| self := a;
         stdout := out ++ wrong_pin_lines 3 0 (List.length wrong) ++ [auth_success_line];
         tty := rest |})) /\
  (List.length wrong = 3%nat ->
     authenticate {| self := a; stdout := out; tty := map Typed wrong ++ rest |} =
     (Return false,
      {| self := a;
         stdout := out ++ [invalid_pin_line 2; invalid_pin_line 1; invalid_pin_line 0;
                           locked_line];
         tty := rest |})).
Proof.
  intros Hmax Hw. split; intros Hlen.
  - eapply authenticate_of_counting.
    rewrite authenticate_counting_right by (try assumption; lia).
    rewrite Hmax. reflexivity.
  - eapply authenticate_of_counting.
    rewrite authenticate_counting_locked by (try assumption; lia).
    rewrite Hmax, Hlen. reflexivity.
Qed.

Lemma authenticate_three_attempts_witness :
  authenticate (fresh_world default_atm [Typed "0000"; Typed "1234"; Typed "9999"]) =
    (Return true,
     {| self := default_atm;
        stdout := [invalid_pin_line 2; auth_success_line];
        tty := [Typed "9999"] |}) /\
  authenticate
    (fresh_world default_atm [Typed "0000"; Typed "12345"; Typed "123"; Typed "1234"]) =
    (Return false,
     {| self := default_atm;
        stdout := [invalid_pin_line 2; invalid_pin_line 1; invalid_pin_line 0; locked_line];
        tty := [Typed "1234"] |}).
Proof.
  split.
  - assert (Hw : Forall (fun s => s <> _pin default_atm) ["0000"%string])
      by (repeat constructor; discriminate).
    destruct (authenticate_three_attempts default_atm [] ["0000"%string]
                [Typed "9999"] eq_refl Hw) as [H _].
    exact (H ltac:(cbn; lia)).
  - assert (Hw : Forall (fun s => s <> _pin default_atm)
                   ["0000"%string; "12345"%string; "123"%string])
      by (repeat constructor; discriminate).
    destruct (authenticate_three_attempts default_atm []
                ["0000"%string; "12345"%string; "123"%string]
                [Typed "1234"] eq_refl Hw) as [_ H].
    exact (H eq_refl).
Defined.

(** C7.  With no attempt allowed, [authenticate] prints the lock-out line
    and returns [False] without asking the terminal for anything. *)
Theorem authenticate_zero_attempts (w : world) :
  _max_attempts (self w) = 0%Z ->
  authenticate w = (Return false, printed [locked_line] w) /\
  tty (snd (authenticate w)) = tty w.
Proof.
  intros Hmax.
  assert (E : authenticate w = (Return false, printed [locked_line] w)).
  { unfold authenticate, authenticate_counting, authenticate_fuel, bind.
    rewrite Hmax. cbn [Z.to_nat authenticate_loop].
    unfold bind, attr. rewrite Hmax. reflexivity. }
  rewrite E. split; reflexivity.
Qed.

Lemma authenticate_zero_attempts_witness :
  authenticate (fresh_world (__init__ 1000 "1234" 0) [Typed "1234"]) =
    (Return false,
     {| self := __init__ 1000 "1234" 0; stdout := [locked_line]; tty := [Typed "1234"] |}).
Proof.
  exact (proj1 (authenticate_zero_attempts
                  (fresh_world (__init__ 1000 "1234" 0) [Typed "1234"]) eq_refl)).
Defined.

(** C9.  Ctrl-C at the PIN prompt, after [wrong] wrong PINs and with
    attempts left, ends [authenticate]: it prints the cancellation line and
    returns [False].  That line differs from the lock-out line, from every
    wrong-PIN line and from the success line, and the attempt counter is
    what the wrong PINs made it: the interruption adds nothing to it. *)
Theorem authenticate_cancelled
    (a : ATMSimulator) (out : list line) (wrong : list string)
    (rest : list tty_event) :
  Forall (fun s => s <> _pin a) wrong ->
  (Z.of_nat (List.length wrong) < _max_attempts a)%Z ->
  let w := {| self := a; stdout := out; tty := map Typed wrong ++ CtrlC :: rest |} in
  let w' := {| self := a;
               stdout := out ++ wrong_pin_lines (_max_attempts a) 0 (List.length wrong)
                             ++ [cancelled_line];
               tty := rest |} in
  authenticate_counting w = (Return (false, Z.of_nat (List.length wrong)), w') /\
  authenticate w = (Return false, w') /\
  cancelled_line <> locked_line /\
  cancelled_line <> auth_success_line /\
  (forall remaining, cancelled_line <> invalid_pin_line remaining).
Proof.
  intros Hw Hlen w w'.
  assert (E : authenticate_counting w = (Return (false, Z.of_nat (List.length wrong)), w'))
    by (apply authenticate_counting_ctrlc; assumption).
  split; [exact E|].
  split; [exact (authenticate_of_counting _ _ _ _ E)|].
  repeat split; try discriminate.
Qed.

Lemma authenticate_cancelled_witness :
  authenticate_counting (fresh_world default_atm [Typed "0000"; CtrlC; Typed "1234"]) =
    (Return (false, 1%Z),
     {| self := default_atm;
        stdout := [invalid_pin_line 2; cancelled_line];
        tty := [Typed "1234"] |}).
Proof.
  assert (Hw : Forall (fun s => s <> _pin default_atm) ["0000"%string])
    by (repeat constructor; discriminate).
  exact (proj1 (authenticate_cancelled default_atm [] ["0000"%string] [Typed "1234"]
                  Hw ltac:(cbn; lia))).
Defined.

(** ** Strings as amounts *)

(** C10.  On a string, [deposit] and [withdraw] always return and never
    raise.  A string [float()] parses is handled as the number [a] it
    parses to: refused as an invalid amount when [a <= 0]; otherwise
    deposited, the balance going up by [a] and the deposit of [a] logged,
    and withdrawn likewise unless [a] exceeds the balance, which is refused
    for insufficient funds.  A string [float()] does not parse makes the
    call print the invalid-input line and return [False] with the object
    unchanged. *)
Theorem string_amounts
    (float_of_str : string -> option float) (now : string) (s : string) (w : world) :
  let b := _balance (self w) in
  let d := deposit float_of_str now (PyStr s) w in
  let r := withdraw float_of_str now (PyStr s) w in
  (forall a, float_of_str s = Some a ->
     ((a <=? 0) = true ->
        refused invalid_deposit_line w d /\ refused invalid_withdrawal_line w r) /\
     ((a <=? 0) = false ->
        (fst d = Return true /\
         _balance (self (snd d)) = b + a /\
         _transaction_history (self (snd d)) =
           (_transaction_history (self w) ++
            [{| tx_type := "deposit"; tx_amount := a;
                tx_balance := b + a; tx_timestamp := now |}])%list) /\
        ((b <? a) = true -> refused insufficient_funds_line w r) /\
        ((b <? a) = false ->
           fst r = Return true /\
           _balance (self (snd r)) = b - a /\
           _transaction_history (self (snd r)) =
             (_transaction_history (self w) ++
              [{| tx_type := "withdrawal"; tx_amount := a;
                  tx_balance := b - a; tx_timestamp := now |}])%list))) /\
  (float_of_str s = None ->
     refused invalid_input_line w d /\ refused invalid_input_line w r) /\
  (exists x w', d = (Return x, w')) /\
  (exists x w', r = (Return x, w')).
Proof.
  cbv zeta. rewrite !deposit_cases, !withdraw_cases. cbn [py_float].
  destruct (float_of_str s) as [a|].
  - split; [|split; [discriminate|]].
    + intros a' [= <-]. split; intros Ha; rewrite Ha.
      * split; repeat split.
      * split; [repeat split|].
        split; intros Hlt; rewrite Hlt; repeat split.
    + destruct (a <=? 0); [split; eexists _, _; reflexivity|].
      split; [eexists _, _; reflexivity|].
      destruct (_balance (self w) <? a); eexists _, _; reflexivity.
  - split; [discriminate|].
    split; [intros _; split; repeat split|].
    split; eexists _, _; reflexivity.
Qed.

Lemma string_amounts_witness :
  (fst (deposit PyFloatStr.float_of_str "09:00" (PyStr " 1e3 ")
          (fresh_world default_atm [])) = Return true /\
   _balance (self (snd (deposit PyFloatStr.float_of_str "09:00" (PyStr " 1e3 ")
          (fresh_world default_atm [])))) = 2000) /\
  _balance (self (snd (withdraw PyFloatStr.float_of_str "09:00" (PyStr " 1e3 ")
          (fresh_world default_atm [])))) = 0 /\
  refused insufficient_funds_line (fresh_world default_atm [])
    (withdraw PyFloatStr.float_of_str "09:00" (PyStr "1e4") (fresh_world default_atm [])) /\
  refused invalid_deposit_line (fresh_world default_atm [])
    (deposit PyFloatStr.float_of_str "09:00" (PyStr "-5") (fresh_world default_atm [])) /\
  refused invalid_input_line (fresh_world default_atm [])
    (withdraw PyFloatStr.float_of_str "09:00" (PyStr "ten") (fresh_world default_atm [])).
Proof.
  destruct (string_amounts PyFloatStr.float_of_str "09:00" " 1e3 "
              (fresh_world default_atm [])) as (H1 & _).
  destruct (H1 1000 eq_refl) as (_ & Hpos).
  destruct (Hpos eq_refl) as ((Hd1 & Hd2 & _) & _ & Hw).
  destruct (Hw eq_refl) as (_ & Hw2 & _).
  destruct (string_amounts PyFloatStr.float_of_str "09:00" "1e4"
              (fresh_world default_atm [])) as (H2 & _).
  destruct (H2 10000 eq_refl) as (_ & Hpos2).
  destruct (Hpos2 eq_refl) as (_ & Hins & _).
  destruct (string_amounts PyFloatStr.float_of_str "09:00" "-5"
              (fresh_world default_atm [])) as (H3 & _).
  destruct (H3 (-5) eq_refl) as (Hneg & _).
  destruct (string_amounts PyFloatStr.float_of_str "09:00" "ten"
              (fresh_world default_atm [])) as (_ & H4 & _).
  split; [split; [exact Hd1 | exact Hd2]|].
  split; [exact Hw2|].
  split; [exact (Hins eq_refl)|].
  split; [exact (proj1 (Hneg eq_refl))|].
  exact (proj2 (H4 eq_refl)).
Defined.

(** ** The scenario of the specification, run *)

(** From 1000: a deposit of 500 gives 1500, a withdrawal of 2000 is refused
    for insufficient funds, a withdrawal of 1500 empties the account, and the
    history holds the two transactions in order. *)
Example scenario :
  run_calls PyFloatStr.float_of_str
    [Deposit "09:00" (PyStr "500.00"); Withdraw "09:05" (PyStr "2000.00");
     Withdraw "09:10" (PyStr "1500.00")]
    (fresh_world default_atm []) =
  ([Return true; Return false; Return true],
   {| self :=
        {| _balance := 0;
           _pin := "1234";
           _max_attempts := 3;
           _transaction_history :=
             [{| tx_type := "deposit"; tx_amount := 500;
                 tx_balance := 1500; tx_timestamp := "09:00" |};
              {| tx_type := "withdrawal"; tx_amount := 1500;
                 tx_balance := 0; tx_timestamp := "09:10" |}] |};
      stdout :=
        [[Lit "$"; Money 500; Lit " deposited successfully."];
         [Lit "New balance: $"; Money 1500];
         insufficient_funds_line;
         [Lit "$"; Money 1500; Lit " withdrawn successfully."];
         [Lit "New balance: $"; Money 0]];
      tty := [] |}).
Proof. reflexivity. Qed.

(** * Further properties *)

(** ** More binary64 arithmetic *)

Module Binary64Order.

Import Binary64.

Local Open Scope Z_scope.

Lemma SF64add_comm (x y : spec_float) : SF64add x y = SF64add y x.
Proof.
  destruct x as [[]|[]| |sx mx ex]; destruct y as [[]|[]| |sy my ey];
    try reflexivity.
  unfold SF64add, SFadd. rewrite (Z.min_comm ex ey), Z.add_comm. reflexivity.
Qed.

Lemma SFleb_refl_pos (x : spec_float) : sf_pos x = true -> SFleb x x = true.
Proof.
  destruct x as [[]|[]| |[] m e]; try discriminate; try reflexivity.
  intros _. apply SFleb_finite_pos. right. split; lia.
Qed.

Lemma Zdigits2_upper (m : positive) (k M : Z) :
  0 <= k -> 0 < M -> M <= Zpos m * 2 ^ k ->
  Zdigits2 M <= Zpos (digits2_pos m) + k.
Proof.
  intros Hk HM0 HM.
  assert (Hpow : 0 < 2 ^ k) by (apply Z.pow_pos_nonneg; lia).
  destruct M as [|M|M]; try lia.
  cbn [Zdigits2].
  pose proof (digits2_pos_bounds m) as [_ Hhi].
  pose proof (digits2_pos_bounds M) as [Hlo _].
  assert (H : 2 ^ (Zpos (digits2_pos M) - 1) < 2 ^ (Zpos (digits2_pos m) + k)).
  { rewrite (Z.pow_add_r 2 (Zpos (digits2_pos m)) k) by lia. nia. }
  apply Z.pow_lt_mono_r_iff in H; lia.
Qed.

(** The decomposition of [binary_round_aux] on a positive mantissa, with
    the bound from above on the rounded mantissa. *)
Lemma binary_round_aux_bounds (s : bool) (M e : Z) (l : location) :
  0 < M -> -1074 <= e ->
  exists (M2 t2 : Z) (m3 : positive),
    let t1 := Z.max e (fexp64 (Zdigits2 M + e)) in
    M / 2 ^ (t1 - e) <= M2 <= M / 2 ^ (t1 - e) + 1 /\
    0 < M2 /\
    t2 = Z.max t1 (fexp64 (Zdigits2 M2 + t1)) /\
    Zpos m3 = M2 / 2 ^ (t2 - t1) /\
    binary_round_aux prec emax s M e l =
      if t2 <=? 971 then S754_finite s m3 t2 else S754_infinity s.
Proof.
  intros HM He.
  destruct (shr_fexp_pos M e l HM He) as (mrs1 & t1 & E1 & Ht1 & Hm1 & Hp1).
  pose proof (round_nearest_even_bounds (shr_m mrs1) (loc_of_shr_record mrs1)) as HR.
  set (M2 := round_nearest_even (shr_m mrs1) (loc_of_shr_record mrs1)) in *.
  assert (HM2 : 0 < M2) by lia.
  assert (Ht1' : -1074 <= t1) by lia.
  destruct (shr_fexp_pos M2 t1 loc_Exact HM2 Ht1') as (mrs2 & t2 & E2 & Ht2 & Hm2 & Hp2).
  destruct (shr_m mrs2) as [|m3|m3] eqn:Em3; try lia.
  exists M2, t2, m3. cbv zeta.
  rewrite <- Ht1.
  split; [lia|]. split; [assumption|]. split; [assumption|]. split; [assumption|].
  unfold binary_round_aux. rewrite E1. fold M2. rewrite E2, Em3.
  reflexivity.
Qed.

(** A rounded value is not above a number of the format that the exact
    value is below. *)
Lemma binary_round_aux_le (m1 : positive) (e1 M e : Z) (l : location) :
  fexp64 (Zpos (digits2_pos m1) + e1) = e1 ->
  e1 <= 971 ->
  -1074 <= e <= e1 ->
  0 < M < Zpos m1 * 2 ^ (e1 - e) ->
  exists (m3 : positive) (t2 : Z),
    binary_round_aux prec emax false M e l = S754_finite false m3 t2 /\
    (t2 < e1 \/ (t2 = e1 /\ Zpos m3 <= Zpos m1)).
Proof.
  intros Hc Hmax He HM.
  destruct (binary_round_aux_bounds false M e l (proj1 HM) (proj1 He))
    as (M2 & t2 & m3 & Hdiv & HM2 & Ht2 & Hm3 & E).
  cbv zeta in Hdiv, Ht2, Hm3.
  pose proof (Zdigits2_upper m1 (e1 - e) M ltac:(lia) (proj1 HM) ltac:(lia)) as Hd.
  assert (Hf : fexp64 (Zdigits2 M + e) <= e1).
  { apply Z.le_trans with (fexp64 (Zpos (digits2_pos m1) + e1));
      [apply fexp64_mono; lia | lia]. }
  set (t1 := Z.max e (fexp64 (Zdigits2 M + e))) in *.
  assert (Ht1 : e <= t1 <= e1) by lia.
  (* the bound at exponent [t1] *)
  assert (Hp1 : 0 < 2 ^ (t1 - e)) by (apply Z.pow_pos_nonneg; lia).
  assert (Hp2 : 0 < 2 ^ (e1 - t1)) by (apply Z.pow_pos_nonneg; lia).
  assert (Hsplit : 2 ^ (e1 - e) = 2 ^ (e1 - t1) * 2 ^ (t1 - e)).
  { rewrite <- Z.pow_add_r by lia. f_equal. lia. }
  assert (Hlt : M / 2 ^ (t1 - e) < Zpos m1 * 2 ^ (e1 - t1)).
  { apply Z.div_lt_upper_bound; [assumption|]. rewrite Hsplit in HM. nia. }
  assert (HM2le : M2 <= Zpos m1 * 2 ^ (e1 - t1)) by lia.
  pose proof (Zdigits2_upper m1 (e1 - t1) M2 ltac:(lia) HM2 HM2le) as Hd2.
  assert (Hf2 : fexp64 (Zdigits2 M2 + t1) <= e1).
  { apply Z.le_trans with (fexp64 (Zpos (digits2_pos m1) + e1));
      [apply fexp64_mono; lia | lia]. }
  assert (Ht2' : t1 <= t2 <= e1) by lia.
  exists m3, t2. split.
  - rewrite E. destruct (Z.leb_spec t2 971); [reflexivity | lia].
  - destruct (Z_lt_le_dec t2 e1) as [|Hge]; [left; assumption|].
    right. split; [lia|].
    assert (Et : t2 = e1) by lia.
    rewrite Hm3, Et.
    apply Z.div_le_upper_bound; [apply Z.pow_pos_nonneg; lia|].
    lia.
Qed.

Lemma shl_align_min (m : positive) (e t : Z) :
  snd (shl_align m e t) = Z.min e t /\
  Zpos (fst (shl_align m e t)) = Zpos m * 2 ^ (e - Z.min e t).
Proof.
  unfold shl_align. destruct (t - e) as [|d|d] eqn:Ed; cbn [fst snd].
  - replace (Z.min e t) with e by lia. rewrite Z.sub_diag. cbn. lia.
  - replace (Z.min e t) with e by lia. rewrite Z.sub_diag. cbn. lia.
  - replace (Z.min e t) with t by lia. rewrite iter_xO_mul.
    replace (e - t) with (Zpos d) by lia. split; reflexivity.
Qed.

Lemma SF64sub_le (x y : spec_float) :
  valid_binary x = true -> valid_binary y = true ->
  sf_zero x || sf_pos x = true ->
  SFltb (S754_zero false) y = true ->
  SFltb y (S754_infinity false) = true ->
  SFltb x y = false ->
  SFleb (SF64sub x y) x = true.
Proof.
  destruct x as [[]|[]| |[] mx ex]; destruct y as [[]|[]| |[] my ey];
    try discriminate; try reflexivity.
  cbn [valid_binary]. intros Vx Vy _ _ _ Hlt.
  apply bounded_inv in Vx as [Cx Hx971]. apply bounded_inv in Vy as [Cy _].
  apply SFltb_finite_pos_false in Hlt.
  assert (Hey : -1074 <= ey) by (unfold fexp64 in Cy; lia).
  assert (Hee : ey <= ex) by lia.
  unfold SF64sub, SFsub, cond_Zopp.
  assert (ez : Z.min ex ey = ey) by lia. rewrite ez.
  rewrite !shl_align_fst by lia.
  replace (ey - ey) with 0 by lia. rewrite Z.pow_0_r, Z.mul_1_r.
  assert (HM : 0 <= Zpos mx * 2 ^ (ex - ey) - Zpos my).
  { destruct Hlt as [Hlt | [-> Hm]].
    - pose proof (digits2_pos_bounds mx) as [Hlo _].
      pose proof (digits2_pos_bounds my) as [_ Hhi].
      assert (Hdx : Zpos (digits2_pos mx) = 53) by (unfold fexp64 in Cx, Cy; lia).
      assert (Hdy : Zpos (digits2_pos my) <= 53) by (unfold fexp64 in Cy; lia).
      rewrite Hdx in Hlo.
      assert (H53 : 2 ^ Zpos (digits2_pos my) <= 2 ^ 53) by (apply Z.pow_le_mono_r; lia).
      assert (2 ^ 1 <= 2 ^ (ex - ey)) by (apply Z.pow_le_mono_r; lia).
      change (2 ^ 1) with 2 in *. change (2 ^ (53 - 1)) with 4503599627370496 in Hlo.
      change (2 ^ 53) with 9007199254740992 in H53.
      nia.
    - rewrite Z.sub_diag, Z.pow_0_r. lia. }
  destruct (Zpos mx * 2 ^ (ex - ey) - Zpos my) as [|p|p] eqn:EM;
    cbn [binary_normalize]; try lia; [reflexivity|].
  unfold binary_round. rewrite fexp_fexp64.
  set (t := fexp64 (Zpos (digits2_pos p) + ey)).
  assert (Ht : -1074 <= t) by (unfold t, fexp64; lia).
  destruct (shl_align_min p ey t) as [Hs Hf].
  destruct (shl_align p ey t) as [mz ez']. cbn [fst snd] in Hs, Hf.
  assert (Hp1 : 0 < 2 ^ (ey - ez')) by (apply Z.pow_pos_nonneg; lia).
  assert (Hsplit : 2 ^ (ex - ez') = 2 ^ (ex - ey) * 2 ^ (ey - ez')).
  { rewrite <- Z.pow_add_r by lia. f_equal. lia. }
  assert (Hez : -1074 <= ez' <= ex) by lia.
  assert (HMz : 0 < Zpos mz < Zpos mx * 2 ^ (ex - ez')).
  { rewrite <- Hs in Hf. rewrite Hsplit, Hf.
    set (A := 2 ^ (ex - ey)) in *. set (B := 2 ^ (ey - ez')) in *.
    split; nia. }
  destruct (binary_round_aux_le mx ex (Zpos mz) ez' loc_Exact Cx Hx971 Hez HMz)
    as (m3 & t2 & E & Hcmp).
  rewrite E. apply SFleb_finite_pos. lia.
Qed.

(** *** On primitive floats *)

Local Close Scope Z_scope.
Local Open Scope float_scope.

Lemma Prim2SF_nan : Prim2SF nan = S754_nan.
Proof. reflexivity. Qed.

Lemma add_comm (a b : float) : a + b = b + a.
Proof. apply Prim2SF_inj. rewrite !add_spec. apply SF64add_comm. Qed.

(** A sum of a non-negative and a positive number is at least the positive
    one. *)
Lemma add_pos_ge_r (b a : float) :
  (0 <=? b) = true -> (0 <? a) = true -> (a <=? b + a) = true.
Proof.
  intros Hb Ha.
  destruct (0 <? b) eqn:Hpos.
  - rewrite add_comm. apply (add_pos_ge a b (pos_nonneg a Ha) Hpos).
  - revert Hb Ha Hpos.
    rewrite leb_zero_l, !ltb_zero_l, leb_spec, add_spec.
    destruct (Prim2SF b) as [[]|[]| |[] mb eb]; try discriminate;
      intros _ Ha _;
      destruct (Prim2SF a) as [[]|[]| |[] ma ea]; try discriminate;
      try reflexivity; apply (SFleb_refl_pos (S754_finite false ma ea)); reflexivity.
Qed.

(** Taking a finite positive amount away from a balance that covers it
    does not raise the balance. *)
Lemma sub_le (b a : float) :
  (0 <=? b) = true -> (a <=? 0) = false -> finite a = true ->
  (b <? a) = false ->
  (b - a <=? b) = true.
Proof.
  intros Hb Ha Hf Hlt.
  pose proof (not_leb_zero_pos a Ha Hf) as Hp.
  unfold finite in Hf. apply andb_true_iff in Hf as [_ Hf].
  revert Hb Hp Hf Hlt.
  rewrite leb_zero_l, leb_spec, !ltb_spec, sub_spec, Prim2SF_zero, Prim2SF_infinity.
  intros Hb Hp Hf Hlt.
  apply SF64sub_le; auto using Prim2SF_valid.
Qed.

(** Nothing is above NaN, and NaN stays NaN. *)
Lemma ltb_nan_l (a : float) : (nan <? a) = false.
Proof. rewrite ltb_spec, Prim2SF_nan. reflexivity. Qed.

Lemma sub_nan_l (a : float) : nan - a = nan.
Proof. apply Prim2SF_inj. rewrite sub_spec, Prim2SF_nan. reflexivity. Qed.

Lemma add_nan_l (a : float) : nan + a = nan.
Proof. apply Prim2SF_inj. rewrite add_spec, Prim2SF_nan. reflexivity. Qed.

Lemma add_nan_r (b : float) : b + nan = nan.
Proof. rewrite add_comm. apply add_nan_l. Qed.

End Binary64Order.

(** ** The history the ledger writes *)

Section LedgerLog.

Variable float_of_str : string -> option float.

Local Open Scope float_scope.

(** What one call does to the object: a call that returns [True] appends one
    well-formed entry recording the new balance, any other call changes
    nothing; the PIN, the attempt bound and the terminal are never touched. *)
Lemma run_call_step (c : call) (w : world) :
  let r := fst (run_call float_of_str c w) in
  let w' := snd (run_call float_of_str c w) in
  _pin (self w') = _pin (self w) /\
  _max_attempts (self w') = _max_attempts (self w) /\
  tty w' = tty w /\
  ((r = Return true /\
    exists t,
      _transaction_history (self w') = (_transaction_history (self w) ++ [t])%list /\
      tx_balance t = _balance (self w') /\
      well_formed_from (_balance (self w)) [t]) \/
   (r <> Return true /\ self w' = self w)).
Proof.
  destruct c as [now v|now v]; cbn [run_call];
    [rewrite deposit_cases | rewrite withdraw_cases];
    destruct (py_float float_of_str v) as [a|e|].
  - destruct (a <=? 0) eqn:Ea.
    + cbn. repeat split. right. split; [discriminate | reflexivity].
    + cbn. repeat split. left. split; [reflexivity|].
      eexists. split; [reflexivity|]. cbn. unfold apply_transaction. cbn.
      repeat split; auto.
  - destruct e; cbn; repeat split; right; split; (discriminate || reflexivity).
  - cbn. repeat split. right. split; [discriminate | reflexivity].
  - destruct (a <=? 0) eqn:Ea.
    + cbn. repeat split. right. split; [discriminate | reflexivity].
    + destruct (_balance (self w) <? a) eqn:Elt.
      * cbn. repeat split. right. split; [discriminate | reflexivity].
      * cbn. repeat split. left. split; [reflexivity|].
        eexists. split; [reflexivity|]. cbn. unfold apply_transaction. cbn.
        repeat split; auto.
  - destruct e; cbn; repeat split; right; split; (discriminate || reflexivity).
  - cbn. repeat split. right. split; [discriminate | reflexivity].
Qed.

Lemma count_true_cons (r : result bool) (rs : list (result bool)) :
  count_true (r :: rs) =
    ((if match r with Return true => true | _ => false end then 1 else 0)
     + count_true rs)%nat.
Proof. destruct r as [[]| |]; reflexivity. Qed.

(** The same over a run of calls. *)
Lemma run_calls_log (cs : list call) : forall w,
  let rs := fst (run_calls float_of_str cs w) in
  let w' := snd (run_calls float_of_str cs w) in
  _pin (self w') = _pin (self w) /\
  _max_attempts (self w') = _max_attempts (self w) /\
  tty w' = tty w /\
  exists added,
    _transaction_history (self w') = (_transaction_history (self w) ++ added)%list /\
    List.length added = count_true rs /\
    well_formed_from (_balance (self w)) added /\
    _balance (self w') = last_balance (_balance (self w)) added.
Proof.
  induction cs as [|c cs IH]; intros w.
  - cbn. repeat split. exists []. rewrite app_nil_r. repeat split.
  - cbn [run_calls].
    pose proof (run_call_step c w) as Hstep. cbv zeta in Hstep.
    destruct (run_call float_of_str c w) as [r w1]. cbn [fst snd] in Hstep.
    specialize (IH w1). cbv zeta in IH.
    destruct (run_calls float_of_str cs w1) as [rs w2]. cbn [fst snd] in IH |- *.
    destruct Hstep as (Hp & Hm & Ht & Hcase).
    destruct IH as (Hp' & Hm' & Ht' & added & Hh & Hl & Hwf & Hb).
    split; [congruence|]. split; [congruence|]. split; [congruence|].
    destruct Hcase as [(-> & t & Hh1 & Hb1 & Hwf1) | (Hr & Hs)].
    + exists (t :: added). rewrite Hh, Hh1, <- app_assoc.
      split; [reflexivity|]. split; [cbn; congruence|].
      cbn [well_formed_from] in Hwf1 |- *.
      destruct Hwf1 as (Hty & Ham & Hbal & _).
      rewrite Hb1. split.
      * split; [exact Hty|]. split; [exact Ham|]. split; [congruence | exact Hwf].
      * unfold last_balance. cbn [fold_left]. rewrite Hb1. exact Hb.
    + exists added. rewrite Hs in Hh, Hwf, Hb.
      split; [exact Hh|]. split; [|split; assumption].
      rewrite count_true_cons, Hl.
      destruct r as [[]| |]; try reflexivity. congruence.
Qed.

(** [run_call] looks at the object only. *)
Lemma run_call_self_only (c : call) (w1 w2 : world) :
  self w1 = self w2 ->
  fst (run_call float_of_str c w1) = fst (run_call float_of_str c w2) /\
  self (snd (run_call float_of_str c w1)) = self (snd (run_call float_of_str c w2)).
Proof.
  intros Hs.
  destruct c as [now v|now v]; cbn [run_call];
    rewrite ?deposit_cases, ?withdraw_cases;
    destruct (py_float float_of_str v) as [a|e|].
  - destruct (a <=? 0); cbn; rewrite Hs; split; reflexivity.
  - destruct e; cbn; rewrite Hs; split; reflexivity.
  - cbn; rewrite Hs; split; reflexivity.
  - rewrite Hs. destruct (a <=? 0); [cbn; rewrite Hs; split; reflexivity|].
    destruct (_balance (self w2) <? a); cbn; rewrite Hs; split; reflexivity.
  - destruct e; cbn; rewrite Hs; split; reflexivity.
  - cbn; rewrite Hs; split; reflexivity.
Qed.

Lemma run_calls_self_only (cs : list call) : forall w1 w2,
  self w1 = self w2 ->
  self (snd (run_calls float_of_str cs w1)) = self (snd (run_calls float_of_str cs w2)).
Proof.
  induction cs as [|c cs IH]; intros w1 w2 Hs; [exact Hs|].
  cbn [run_calls].
  destruct (run_call_self_only c w1 w2 Hs) as [_ H1].
  destruct (run_call float_of_str c w1) as [r1 wa].
  destruct (run_call float_of_str c w2) as [r2 wb]. cbn [snd] in H1.
  specialize (IH wa wb H1).
  destruct (run_calls float_of_str cs wa) as [rsa wa'].
  destruct (run_calls float_of_str cs wb) as [rsb wb']. exact IH.
Qed.

Lemma run_calls_app (cs1 cs2 : list call) : forall w,
  snd (run_calls float_of_str (cs1 ++ cs2) w) =
  snd (run_calls float_of_str cs2 (snd (run_calls float_of_str cs1 w))).
Proof.
  induction cs1 as [|c cs1 IH]; intros w; [reflexivity|].
  cbn [app run_calls].
  destruct (run_call float_of_str c w) as [r w1].
  specialize (IH w1).
  destruct (run_calls float_of_str (cs1 ++ cs2) w1) as [rs w2].
  destruct (run_calls float_of_str cs1 w1) as [rs1 w1']. exact IH.
Qed.

End LedgerLog.

(** X1.  Whatever calls are made with whatever arguments, the history only
    grows at its end, by exactly one entry per call that returned [True];
    no entry is changed or removed, and the PIN and the attempt bound keep
    their values. *)
Theorem history_append_only
    (float_of_str : string -> option float) (cs : list call) (w : world) :
  exists added,
    _transaction_history (self (snd (run_calls float_of_str cs w))) =
      (_transaction_history (self w) ++ added)%list /\
    List.length added = count_true (fst (run_calls float_of_str cs w)) /\
    _pin (self (snd (run_calls float_of_str cs w))) = _pin (self w) /\
    _max_attempts (self (snd (run_calls float_of_str cs w))) = _max_attempts (self w).
Proof.
  destruct (run_calls_log float_of_str cs w) as (Hp & Hm & _ & added & Hh & Hl & _).
  exists added. auto.
Qed.

(** X2.  On a ledger created with balance [b0], after any calls: the
    history reads back.  Every entry is a deposit or a withdrawal of an
    amount that passed the check, no withdrawal exceeded the balance before
    it, each recorded balance is the one before it plus or minus the amount,
    and the current balance is the one the last entry records ([b0] if the
    history is empty). *)
Theorem history_replays
    (float_of_str : string -> option float) (b0 : float) (pin : string)
    (max_attempts : Z) (events : list tty_event) (cs : list call) :
  let w' := snd (run_calls float_of_str cs
                   (fresh_world (__init__ b0 pin max_attempts) events)) in
  well_formed_from b0 (_transaction_history (self w')) /\
  _balance (self w') = last_balance b0 (_transaction_history (self w')).
Proof.
  destruct (run_calls_log float_of_str cs
              (fresh_world (__init__ b0 pin max_attempts) events))
    as (_ & _ & _ & added & Hh & _ & Hwf & Hb).
  cbn [fresh_world __init__ self _balance _transaction_history app] in Hh, Hwf, Hb.
  cbv zeta. rewrite Hh. auto.
Qed.

(** X3.  [deposit] and [withdraw] catch [ValueError] only.  When a call
    lets an exception through, it is the [TypeError] of an argument
    [float()] has no conversion for or the [OverflowError] of an int too
    large for a float, and the call has changed and printed nothing. *)
Theorem ledger_exception_untouched
    (float_of_str : string -> option float) (c : call) (w w' : world) (e : exn) :
  run_call float_of_str c w = (Raise e, w') ->
  w' = w /\
  (amount_of c = PyNone /\ e = TypeError \/
   exists z, amount_of c = PyInt z /\ float_of_int z = None /\ e = OverflowError).
Proof.
  destruct c as [now v|now v]; cbn [run_call amount_of];
    [rewrite deposit_cases | rewrite withdraw_cases];
    (destruct v as [f|z|s|]; cbn [py_float];
     [ | destruct (float_of_int z) as [f|] eqn:Ez
       | destruct (float_of_str s) as [f|] | ]);
    try (destruct (f <=? 0)%float; try discriminate;
         destruct (_balance (self w) <? f)%float; discriminate);
    try discriminate;
    intros [= <- <-]; split; try reflexivity.
  - right. exists z. auto.
  - left. auto.
  - right. exists z. auto.
  - left. auto.
Qed.

Lemma ledger_exception_untouched_witness :
  fresh_world default_atm [] = fresh_world default_atm [] /\
  (amount_of (Deposit "09:00" PyNone) = PyNone /\ TypeError = TypeError \/
   exists z, amount_of (Deposit "09:00" PyNone) = PyInt z /\
             float_of_int z = None /\ TypeError = OverflowError).
Proof.
  exact (ledger_exception_untouched PyFloatStr.float_of_str
           (Deposit "09:00" PyNone) (fresh_world default_atm [])
           (fresh_world default_atm []) TypeError eq_refl).
Defined.

(** X4.  On a non-negative balance, a deposit of a positive amount followed
    by a withdrawal of the same amount is never refused: both calls return
    [True]. *)
Theorem deposit_then_withdraw_accepted
    (float_of_str : string -> option float) (now1 now2 : string) (v : pyval)
    (a : float) (w : world) :
  py_float float_of_str v = Return a ->
  (0 <=? _balance (self w))%float = true ->
  (0 <? a)%float = true ->
  fst (run_calls float_of_str [Deposit now1 v; Withdraw now2 v] w) =
    [Return true; Return true].
Proof.
  intros Hv Hb Ha. cbn [run_calls run_call].
  rewrite deposit_cases, Hv, (Binary64.pos_not_leb_zero a Ha).
  rewrite withdraw_cases, Hv, (Binary64.pos_not_leb_zero a Ha).
  cbn [deposited self _balance].
  rewrite (Binary64.ltb_leb_false _ a
             (Binary64Order.add_pos_ge_r (_balance (self w)) a Hb Ha)).
  reflexivity.
Qed.

Lemma deposit_then_withdraw_accepted_witness :
  fst (run_calls PyFloatStr.float_of_str
         [Deposit "09:00" (PyStr "0.1"); Withdraw "09:05" (PyStr "0.1")]
         (fresh_world default_atm [])) = [Return true; Return true].
Proof.
  exact (deposit_then_withdraw_accepted PyFloatStr.float_of_str "09:00" "09:05"
           (PyStr "0.1") 0.1%float (fresh_world default_atm [])
           eq_refl eq_refl eq_refl).
Defined.

(** X5.  NaN passes the check [amount <= 0]: a deposit of NaN is accepted
    and makes the balance NaN.  On a NaN balance the test
    [amount > balance] is never true, so every withdrawal that passes the
    first check is accepted, whatever the amount, and the balance stays
    NaN. *)
Theorem nan_balance_absorbs
    (float_of_str : string -> option float) (now : string) (w : world) :
  (fst (deposit float_of_str now (PyFloat nan) w) = Return true /\
   _balance (self (snd (deposit float_of_str now (PyFloat nan) w))) = nan) /\
  (_balance (self w) = nan ->
   forall v a, py_float float_of_str v = Return a -> (a <=? 0)%float = false ->
     fst (withdraw float_of_str now v w) = Return true /\
     _balance (self (snd (withdraw float_of_str now v w))) = nan).
Proof.
  split.
  - rewrite deposit_cases. cbn [py_float].
    change (nan <=? 0)%float with false. cbn.
    split; [reflexivity | apply Binary64Order.add_nan_r].
  - intros Hb v a Hv Ha. rewrite withdraw_cases, Hv, Ha, Hb.
    rewrite Binary64Order.ltb_nan_l. cbn. rewrite Hb.
    split; [reflexivity | apply Binary64Order.sub_nan_l].
Qed.

Lemma nan_balance_absorbs_witness :
  fst (withdraw PyFloatStr.float_of_str "09:05" (PyStr "1e300")
         (snd (deposit PyFloatStr.float_of_str "09:00" (PyStr "nan")
                 (fresh_world default_atm [])))) = Return true /\
  _balance (self (snd (withdraw PyFloatStr.float_of_str "09:05" (PyStr "1e300")
         (snd (deposit PyFloatStr.float_of_str "09:00" (PyStr "nan")
                 (fresh_world default_atm [])))))) = nan.
Proof.
  exact (proj2 (nan_balance_absorbs PyFloatStr.float_of_str "09:05"
                  (snd (deposit PyFloatStr.float_of_str "09:00" (PyStr "nan")
                          (fresh_world default_atm []))))
           eq_refl (PyStr "1e300") 1e300%float eq_refl eq_refl).
Defined.

(** X6.  An accepted call leaves a float as the balance.  From then on,
    while the balance is a number at least zero, a further deposit of a
    finite amount that returns [True] never lowers the balance and a further
    withdrawal of a finite amount that returns [True] never raises it. *)
Theorem accepted_call_moves_balance
    (float_of_str : string -> option float) (c0 c : call) (w0 w w' : world) :
  run_call float_of_str c0 w0 = (Return true, w) ->
  (0 <=? _balance (self w))%float = true ->
  finite_amount float_of_str c ->
  run_call float_of_str c w = (Return true, w') ->
  match c with
  | Deposit _ _ => (_balance (self w) <=? _balance (self w'))%float = true
  | Withdraw _ _ => (_balance (self w') <=? _balance (self w))%float = true
  end.
Proof.
  intros _ Hb. unfold finite_amount.
  destruct c as [now v|now v]; cbn [run_call];
    [rewrite deposit_cases | rewrite withdraw_cases];
    destruct (py_float float_of_str v) as [a|e|]; try (destruct e; discriminate);
    try discriminate; intros Hf.
  - destruct (a <=? 0)%float eqn:Ea; [discriminate|].
    intros [= <-]. cbn.
    apply (Binary64.add_pos_ge _ a Hb (Binary64.not_leb_zero_pos a Ea Hf)).
  - destruct (a <=? 0)%float eqn:Ea; [discriminate|].
    destruct (_balance (self w) <? a)%float eqn:Elt; [discriminate|].
    intros [= <-]. cbn.
    apply Binary64Order.sub_le; assumption.
Qed.

Lemma accepted_call_moves_balance_witness :
  (_balance (self (withdrawn "09:05" 0.1
                     (deposited "09:00" 9007199254740992 (fresh_world default_atm []))))
     <=? _balance (self (deposited "09:00" 9007199254740992
                           (fresh_world default_atm []))))%float = true.
Proof.
  exact (accepted_call_moves_balance PyFloatStr.float_of_str
           (Deposit "09:00" (PyInt 9007199254740992))
           (Withdraw "09:05" (PyStr "0.1")) (fresh_world default_atm [])
           (deposited "09:00" 9007199254740992 (fresh_world default_atm []))
           (withdrawn "09:05" 0.1
              (deposited "09:00" 9007199254740992 (fresh_world default_atm [])))
           eq_refl eq_refl eq_refl eq_refl).
Defined.

(** ** Listing the history *)

Local Open Scope list_scope.

Lemma printed_nil (w : world) : printed [] w = w.
Proof. destruct w as [a out events]. unfold printed. cbn. rewrite app_nil_r. reflexivity. Qed.

Lemma printed_printed (l1 l2 : list line) (w : world) :
  printed l2 (printed l1 w) = printed (l1 ++ l2) w.
Proof. unfold printed. cbn. rewrite app_assoc. reflexivity. Qed.

Lemma print_printed (l : line) (w : world) : print l w = (Return tt, printed [l] w).
Proof. reflexivity. Qed.

Lemma for_each_print {A} (f : A -> line) (l : list A) : forall w,
  for_each l (fun x => print (f x)) w = (Return tt, printed (map f l) w).
Proof.
  induction l as [|x l IH]; intros w.
  - cbn. rewrite printed_nil. reflexivity.
  - cbn [for_each map]. unfold bind. rewrite print_printed, IH, printed_printed.
    reflexivity.
Qed.

(** The listing, as one equation. *)
Lemma print_transaction_history_eq (w : world) :
  print_transaction_history w =
    (Return tt,
     {| self := self w;
        stdout := stdout w ++
                  match _transaction_history (self w) with
                  | [] => [no_transactions_line]
                  | history => history_header_line :: map history_line history
                  end;
        tty := tty w |}).
Proof.
  unfold print_transaction_history, bind, attr.
  destruct (_transaction_history (self w)) as [|t history]; [reflexivity|].
  rewrite print_printed, for_each_print, printed_printed. reflexivity.
Qed.

(** X7.  [print_transaction_history] prints the single line "No
    transactions found." for an empty history; otherwise the header and then
    one line per transaction, oldest first: the timestamp, "Type: " and the
    capitalized type ("Deposit", "Withdrawal"), "Amount: $" and the amount,
    "Balance: $" and the balance recorded, separated by " | ".  It changes
    neither the object nor the terminal. *)
Theorem history_listing (w : world) :
  let r := print_transaction_history w in
  fst r = Return tt /\
  self (snd r) = self w /\
  tty (snd r) = tty w /\
  stdout (snd r) =
    stdout w ++
    match _transaction_history (self w) with
    | [] => [[Lit "No transactions found."]]
    | history =>
        [Lit (String (ascii_of_nat 10) "--- Transaction History ---")] ::
        map (fun t =>
               [Lit (tx_timestamp t); Lit " | ";
                Lit "Type: "; Lit (capitalize (tx_type t)); Lit " | ";
                Lit "Amount: $"; Money (tx_amount t); Lit " | ";
                Lit "Balance: $"; Money (tx_balance t)])
            history
    end /\
  capitalize "deposit" = "Deposit"%string /\
  capitalize "withdrawal" = "Withdrawal"%string.
Proof.
  cbv zeta. rewrite print_transaction_history_eq. cbn [fst snd self tty stdout].
  repeat split.
Qed.

Lemma history_listing_witness :
  stdout (snd (print_transaction_history
                 (snd (run_calls PyFloatStr.float_of_str
                         [Deposit "09:00" (PyStr "500"); Withdraw "09:05" (PyStr "200")]
                         (fresh_world default_atm []))))) =
  [[Lit "$"; Money 500; Lit " deposited successfully."];
   [Lit "New balance: $"; Money 1500];
   [Lit "$"; Money 200; Lit " withdrawn successfully."];
   [Lit "New balance: $"; Money 1300];
   [Lit (String (ascii_of_nat 10) "--- Transaction History ---")];
   [Lit "09:00"; Lit " | "; Lit "Type: "; Lit "Deposit"; Lit " | ";
    Lit "Amount: $"; Money 500; Lit " | "; Lit "Balance: $"; Money 1500];
   [Lit "09:05"; Lit " | "; Lit "Type: "; Lit "Withdrawal"; Lit " | ";
    Lit "Amount: $"; Money 200; Lit " | "; Lit "Balance: $"; Money 1300]].
Proof.
  exact (proj1 (proj2 (proj2 (proj2
           (history_listing
              (snd (run_calls PyFloatStr.float_of_str
                      [Deposit "09:00" (PyStr "500"); Withdraw "09:05" (PyStr "200")]
                      (fresh_world default_atm [])))))))).
Defined.

(** ** Authentication on any terminal *)

(** Whatever the terminal sends, the loop leaves the object alone, reads
    the events in order and no more of them than attempts remain, and when
    it raises, it is [EOFError] on a terminal read to its end. *)
Lemma authenticate_loop_reads (fuel : nat) : forall (k : Z) (w w' : world) r,
  authenticate_loop fuel k w = (r, w') ->
  self w' = self w /\
  (exists consumed,
     tty w = consumed ++ tty w' /\
     (Z.of_nat (List.length consumed) <= Z.max 0 (_max_attempts (self w) - k))%Z) /\
  (forall e, r = Raise e -> e = EOFError /\ tty w' = []).
Proof.
  induction fuel as [|fuel IH]; intros k w w' r.
  - cbn. intros [= <- <-]. split; [reflexivity|]. split; [|discriminate].
    exists []. split; [reflexivity | cbn; lia].
  - cbn [authenticate_loop]. unfold bind at 1, attr at 1.
    destruct (Z.ltb_spec k (_max_attempts (self w))) as [Hlt|Hge].
    + unfold bind at 1.
      destruct w as [a out events]. cbn [self] in *.
      destruct events as [|[s|] rest].
      * cbn. intros [= <- <-]. cbn. split; [reflexivity|].
        split; [exists []; split; [reflexivity | cbn; lia]|].
        intros e [= <-]. auto.
      * unfold attempt, try_except, bind, getpass, attr. cbn.
        destruct (String.eqb s (_pin a)).
        -- cbn. intros [= <- <-]. cbn. split; [reflexivity|].
           split; [exists [Typed s]; split; [reflexivity | cbn; lia]|].
           discriminate.
        -- cbn. intros E. apply IH in E. cbn [self tty] in E.
           destruct E as (Hs & (consumed & Ht & Hl) & He).
           split; [exact Hs|]. split; [|exact He].
           exists (Typed s :: consumed). rewrite Ht.
           split; [reflexivity | cbn [List.length]; lia].
      * cbn. intros [= <- <-]. cbn. split; [reflexivity|].
        split; [exists [CtrlC]; split; [reflexivity | cbn; lia]|].
        discriminate.
    + cbn. intros [= <- <-]. cbn. split; [reflexivity|].
      split; [exists []; split; [reflexivity | cbn; lia]|].
      discriminate.
Qed.

(** X8.  Whatever the terminal sends, [authenticate] never changes the
    object, reads the terminal events in order, and reads at most
    [max_attempts] of them (none when that is zero or negative). *)
Theorem authenticate_reads_at_most (w : world) :
  self (snd (authenticate w)) = self w /\
  exists consumed,
    tty w = consumed ++ tty (snd (authenticate w)) /\
    (List.length consumed <= Z.to_nat (_max_attempts (self w)))%nat.
Proof.
  unfold authenticate, bind, authenticate_counting.
  destruct (authenticate_loop (authenticate_fuel (self w)) 0 w) as [r w'] eqn:E.
  apply authenticate_loop_reads in E as (Hs & (consumed & Ht & Hl) & _).
  assert (H : self w' = self w /\
              exists consumed, tty w = consumed ++ tty w' /\
                (List.length consumed <= Z.to_nat (_max_attempts (self w)))%nat).
  { split; [exact Hs|]. exists consumed. split; [exact Ht | lia]. }
  destruct r as [[b n]|e|]; exact H.
Qed.

(** The loop returns [True] only on the stored PIN, typed after wrong ones
    and while attempts remained. *)
Lemma authenticate_loop_true (fuel : nat) : forall (k n : Z) (w w' : world),
  authenticate_loop fuel k w = (Return (true, n), w') ->
  exists wrong,
    tty w = map Typed wrong ++ Typed (_pin (self w)) :: tty w' /\
    Forall (fun s => s <> _pin (self w)) wrong /\
    (k + Z.of_nat (List.length wrong) < _max_attempts (self w))%Z /\
    self w' = self w /\
    stdout w' = stdout w ++ wrong_pin_lines (_max_attempts (self w)) k (List.length wrong)
                         ++ [auth_success_line].
Proof.
  induction fuel as [|fuel IH]; intros k n w w'; [discriminate|].
  cbn [authenticate_loop]. unfold bind at 1, attr at 1.
  destruct (Z.ltb_spec k (_max_attempts (self w))) as [Hlt|Hge]; [|discriminate].
  unfold bind at 1.
  destruct w as [a out events]. cbn [self stdout tty] in *.
  destruct events as [|[s|] rest]; [discriminate | | discriminate].
  unfold attempt, try_except, bind, getpass, attr. cbn.
  destruct (String.eqb_spec s (_pin a)) as [->|Hne].
  - cbn. intros [= <- <-]. exists []. cbn. repeat split; try lia. constructor.
  - cbn. intros E. apply IH in E. cbn [self stdout tty] in E.
    destruct E as (wrong & Ht & Hw & Hl & Hs & Ho).
    exists (s :: wrong). cbn [map app List.length wrong_pin_lines].
    rewrite Ht, Ho, <- app_assoc.
    split; [reflexivity|]. split; [constructor; assumption|].
    split; [lia|]. split; [exact Hs | reflexivity].
Qed.

(** X9.  [authenticate] returns [True] exactly when the stored PIN is
    typed after fewer than [max_attempts] wrong entries, with no Ctrl-C
    before it; the events after the PIN are left unread, the object is
    untouched, and one wrong-PIN line per wrong entry is printed before the
    success line. *)
Theorem authenticate_true_iff (w w' : world) :
  authenticate w = (Return true, w') <->
  exists wrong,
    tty w = map Typed wrong ++ Typed (_pin (self w)) :: tty w' /\
    Forall (fun s => s <> _pin (self w)) wrong /\
    (Z.of_nat (List.length wrong) < _max_attempts (self w))%Z /\
    self w' = self w /\
    stdout w' = stdout w ++ wrong_pin_lines (_max_attempts (self w)) 0 (List.length wrong)
                         ++ [auth_success_line].
Proof.
  split.
  - unfold authenticate, bind, authenticate_counting.
    destruct (authenticate_loop (authenticate_fuel (self w)) 0 w)
      as [[[b n]|e|] w1] eqn:E; try discriminate.
    cbn. intros [= -> <-].
    apply authenticate_loop_true in E. exact E.
  - intros (wrong & Ht & Hw & Hl & Hs & Ho).
    destruct w as [a out events], w' as [a' out' events'].
    cbn [self stdout tty] in *. subst.
    eapply authenticate_of_counting.
    apply authenticate_counting_right; assumption.
Qed.

Lemma authenticate_true_iff_witness :
  exists wrong,
    tty (fresh_world default_atm [Typed "0000"; Typed "1234"; CtrlC]) =
      map Typed wrong ++
      Typed (_pin (self (fresh_world default_atm [Typed "0000"; Typed "1234"; CtrlC]))) ::
      tty {| self := default_atm; stdout := [invalid_pin_line 2; auth_success_line];
             tty := [CtrlC] |} /\
    Forall (fun s => s <> _pin default_atm) wrong /\
    (Z.of_nat (List.length wrong) < 3)%Z /\
    default_atm = default_atm /\
    [invalid_pin_line 2; auth_success_line] =
      [] ++ wrong_pin_lines 3 0 (List.length wrong) ++ [auth_success_line].
Proof.
  exact (proj1 (authenticate_true_iff
                  (fresh_world default_atm [Typed "0000"; Typed "1234"; CtrlC])
                  {| self := default_atm;
                     stdout := [invalid_pin_line 2; auth_success_line];
                     tty := [CtrlC] |})
           eq_refl).
Defined.

(** X10.  When the terminal ends while attempts remain, after wrong PINs
    only, [authenticate] does not return: the [EOFError] of [getpass] goes
    through, the wrong-PIN lines printed so far. *)
Theorem authenticate_end_of_input
    (a : ATMSimulator) (out : list line) (wrong : list string) :
  Forall (fun s => s <> _pin a) wrong ->
  (Z.of_nat (List.length wrong) < _max_attempts a)%Z ->
  authenticate {| self := a; stdout := out; tty := map Typed wrong |} =
    (Raise EOFError,
     {| self := a;
        stdout := out ++ wrong_pin_lines (_max_attempts a) 0 (List.length wrong);
        tty := [] |}).
Proof.
  intros Hw Hlen.
  unfold authenticate, bind, authenticate_counting. cbn [self].
  rewrite (authenticate_fuel_split a (List.length wrong)) by lia.
  rewrite <- (app_nil_r (map Typed wrong)).
  rewrite authenticate_loop_wrong by (try assumption; lia).
  cbn [authenticate_loop Z.add].
  unfold bind at 1, attr at 1. cbn [self].
  assert (Hlt : (Z.of_nat (List.length wrong) <? _max_attempts a)%Z = true)
    by (apply Z.ltb_lt; lia).
  rewrite Hlt. reflexivity.
Qed.

Lemma authenticate_end_of_input_witness :
  authenticate (fresh_world default_atm [Typed "0000"; Typed "1111"]) =
    (Raise EOFError,
     {| self := default_atm;
        stdout := [invalid_pin_line 2; invalid_pin_line 1];
        tty := [] |}).
Proof.
  assert (Hw : Forall (fun s => s <> _pin default_atm) ["0000"%string; "1111"%string])
    by (repeat constructor; discriminate).
  exact (authenticate_end_of_input default_atm [] ["0000"%string; "1111"%string]
           Hw ltac:(cbn; lia)).
Defined.

(** X11.  For any bound [max_attempts], that many wrong PINs in a row (none
    at all when the bound is zero or negative) lock the account:
    [authenticate] prints a countdown line after each of them, then the
    lock-out line, returns [False] and reads nothing further. *)
Theorem authenticate_locks_after_max
    (a : ATMSimulator) (out : list line) (wrong : list string)
    (rest : list tty_event) :
  Forall (fun s => s <> _pin a) wrong ->
  List.length wrong = Z.to_nat (_max_attempts a) ->
  authenticate {| self := a; stdout := out; tty := map Typed wrong ++ rest |} =
    (Return false,
     {| self := a;
        stdout := out ++ wrong_pin_lines (_max_attempts a) 0 (List.length wrong)
                      ++ [locked_line];
        tty := rest |}).
Proof.
  intros Hw Hlen. eapply authenticate_of_counting.
  apply authenticate_counting_locked; assumption.
Qed.

Lemma authenticate_locks_after_max_witness :
  authenticate (fresh_world (__init__ 1000 "1234" (-2)) [Typed "1234"]) =
    (Return false,
     {| self := __init__ 1000 "1234" (-2); stdout := [locked_line];
        tty := [Typed "1234"] |}) /\
  authenticate (fresh_world (__init__ 1000 "1234" 1) [Typed "4321"; Typed "1234"]) =
    (Return false,
     {| self := __init__ 1000 "1234" 1; stdout := [invalid_pin_line 0; locked_line];
        tty := [Typed "1234"] |}).
Proof.
  split.
  - exact (authenticate_locks_after_max (__init__ 1000 "1234" (-2)) [] []
             [Typed "1234"] (Forall_nil _) eq_refl).
  - assert (Hw : Forall (fun s => s <> _pin (__init__ 1000 "1234" 1)) ["4321"%string])
      by (repeat constructor; discriminate).
    exact (authenticate_locks_after_max (__init__ 1000 "1234" 1) [] ["4321"%string]
             [Typed "1234"] Hw eq_refl).
Defined.

(** ** The menu loop *)

Section SessionFacts.

Variable float_of_str : string -> option float.
Variable clock : nat -> string.

(** On a string the ledger always returns. *)
Lemma string_amounts_returns (now amt : string) (w : world) :
  exists b, fst (deposit float_of_str now (PyStr amt) w) = Return b.
Proof.
  rewrite deposit_cases. cbn [py_float].
  destruct (float_of_str amt) as [a|]; [|eexists; reflexivity].
  destruct (a <=? 0)%float; eexists; reflexivity.
Qed.

Lemma string_amounts_returns' (now amt : string) (w : world) :
  exists b, fst (withdraw float_of_str now (PyStr amt) w) = Return b.
Proof.
  rewrite withdraw_cases. cbn [py_float].
  destruct (float_of_str amt) as [a|]; [|eexists; reflexivity].
  destruct (a <=? 0)%float; [eexists; reflexivity|].
  destruct (_balance (self w) <? a)%float; eexists; reflexivity.
Qed.

(** One pass through the menu: it never runs out of fuel; it raises only
    [EOFError], on a terminal read to its end; it reads the terminal in
    order, and at least one event when the loop is to go on; and what it does
    to the object is what at most one [deposit] or [withdraw] call on a
    string does. *)
Lemma menu_pass_inv (now : string) (w w' : world) (r : result bool) :
  menu_pass float_of_str now w = (r, w') ->
  r <> OutOfFuel /\
  (forall e, r = Raise e -> e = EOFError /\ tty w' = []) /\
  (exists consumed,
     tty w = consumed ++ tty w' /\ (r = Return false -> consumed <> [])) /\
  (exists cs,
     Forall string_call cs /\
     self w' = self (snd (run_calls float_of_str cs (fresh_world (self w) [])))).
Proof.
  assert (Hnil : exists cs, Forall string_call cs /\
            self w = self (snd (run_calls float_of_str cs (fresh_world (self w) [])))).
  { exists []. split; [constructor | reflexivity]. }
  destruct w as [a out events]. cbn [self tty] in *.
  unfold menu_pass, print_menu, input, check_balance.
  unfold try_except, bind, print, getpass, attr, ret. cbn [self stdout tty].
  destruct events as [|[s|] rest].
  - intros [= <- <-]. cbn [self tty]. split; [discriminate|].
    split; [intros e [= <-]; auto|].
    split; [exists []; split; [reflexivity | discriminate] | exact Hnil].
  - cbn [exn_eqb].
    destruct (String.eqb (py_strip s) "1").
    { cbn. intros [= <- <-]. cbn [self tty]. split; [discriminate|].
      split; [discriminate|].
      split; [exists [Typed s]; split; [reflexivity | discriminate] | exact Hnil]. }
    destruct (String.eqb (py_strip s) "2").
    { destruct rest as [|[amt|] rest'].
      - cbn. intros [= <- <-]. cbn [self tty]. split; [discriminate|].
        split; [intros e [= <-]; auto|].
        split; [exists [Typed s]; split; [reflexivity | discriminate] | exact Hnil].
      - cbn [self stdout tty].
        match goal with
        | |- context [deposit float_of_str now (PyStr amt) ?W] =>
            pose proof (run_call_step float_of_str (Deposit now (PyStr amt)) W) as Hstep;
            pose proof (run_call_self_only float_of_str (Deposit now (PyStr amt)) W
                          (fresh_world a []) eq_refl) as [_ Hself];
            pose proof (string_amounts_returns now amt W) as Hret;
            cbn [run_call] in Hstep, Hself;
            destruct (deposit float_of_str now (PyStr amt) W) as [rd wd]
        end.
        cbv zeta in Hstep. cbn [fst snd self tty] in *.
        destruct Hstep as (_ & _ & Ht & _).
        destruct Hret as (b & ->). cbn.
        intros [= <- <-]. split; [discriminate|]. split; [discriminate|].
        split.
        + exists [Typed s; Typed amt]. rewrite Ht. split; [reflexivity | discriminate].
        + exists [Deposit now (PyStr amt)]. split.
          * constructor; [exists amt; reflexivity | constructor].
          * cbn [run_calls run_call].
            destruct (deposit float_of_str now (PyStr amt) (fresh_world a [])).
            exact Hself.
      - cbn. intros [= <- <-]. cbn [self tty]. split; [discriminate|].
        split; [discriminate|].
        split; [exists [Typed s; CtrlC]; split; [reflexivity | discriminate] | exact Hnil]. }
    destruct (String.eqb (py_strip s) "3").
    { destruct rest as [|[amt|] rest'].
      - cbn. intros [= <- <-]. cbn [self tty]. split; [discriminate|].
        split; [intros e [= <-]; auto|].
        split; [exists [Typed s]; split; [reflexivity | discriminate] | exact Hnil].
      - cbn [self stdout tty].
        match goal with
        | |- context [withdraw float_of_str now (PyStr amt) ?W] =>
            pose proof (run_call_step float_of_str (Withdraw now (PyStr amt)) W) as Hstep;
            pose proof (run_call_self_only float_of_str (Withdraw now (PyStr amt)) W
                          (fresh_world a []) eq_refl) as [_ Hself];
            pose proof (string_amounts_returns' now amt W) as Hret;
            cbn [run_call] in Hstep, Hself;
            destruct (withdraw float_of_str now (PyStr amt) W) as [rd wd]
        end.
        cbv zeta in Hstep. cbn [fst snd self tty] in *.
        destruct Hstep as (_ & _ & Ht & _).
        destruct Hret as (b & ->). cbn.
        intros [= <- <-]. split; [discriminate|]. split; [discriminate|].
        split.
        + exists [Typed s; Typed amt]. rewrite Ht. split; [reflexivity | discriminate].
        + exists [Withdraw now (PyStr amt)]. split.
          * constructor; [exists amt; reflexivity | constructor].
          * cbn [run_calls run_call].
            destruct (withdraw float_of_str now (PyStr amt) (fresh_world a [])).
            exact Hself.
      - cbn. intros [= <- <-]. cbn [self tty]. split; [discriminate|].
        split; [discriminate|].
        split; [exists [Typed s; CtrlC]; split; [reflexivity | discriminate] | exact Hnil]. }
    destruct (String.eqb (py_strip s) "4").
    { match goal with
      | |- context [print_transaction_history ?W] =>
          rewrite (print_transaction_history_eq W)
      end.
      cbn. intros [= <- <-]. cbn [self tty]. split; [discriminate|].
      split; [discriminate|].
      split; [exists [Typed s]; split; [reflexivity | discriminate] | exact Hnil]. }
    destruct (String.eqb (py_strip s) "5").
    { cbn. intros [= <- <-]. cbn [self tty]. split; [discriminate|].
      split; [discriminate|].
      split; [exists [Typed s]; split; [reflexivity | discriminate] | exact Hnil]. }
    cbn. intros [= <- <-]. cbn [self tty]. split; [discriminate|].
    split; [discriminate|].
    split; [exists [Typed s]; split; [reflexivity | discriminate] | exact Hnil].
  - cbn. intros [= <- <-]. cbn [self tty]. split; [discriminate|].
    split; [discriminate|].
    split; [exists [CtrlC]; split; [reflexivity | discriminate] | exact Hnil].
Qed.

(** The loop of passes, with fuel for every event still to come. *)
Lemma menu_loop_inv (fuel : nat) : forall (pass : nat) (w w' : world) (r : result unit),
  (List.length (tty w) < fuel)%nat ->
  menu_loop float_of_str clock fuel pass w = (r, w') ->
  r <> OutOfFuel /\
  (forall e, r = Raise e -> e = EOFError /\ tty w' = []) /\
  (exists consumed, tty w = consumed ++ tty w') /\
  (exists cs,
     Forall string_call cs /\
     self w' = self (snd (run_calls float_of_str cs (fresh_world (self w) [])))).
Proof.
  induction fuel as [|fuel IH]; intros pass w w' r Hfuel; [lia|].
  cbn [menu_loop]. unfold bind at 1.
  destruct (menu_pass float_of_str (clock pass) w) as [r1 w1] eqn:E1.
  apply menu_pass_inv in E1 as (Hf1 & He1 & (consumed1 & Ht1 & Hne1) & (cs1 & Hcs1 & Hs1)).
  destruct r1 as [[|]|e1|]; [| | |contradiction].
  - intros [= <- <-]. split; [discriminate|]. split; [discriminate|].
    split; [exists consumed1; exact Ht1|]. exists cs1. auto.
  - intros E2.
    assert (Hlen : (List.length (tty w1) < fuel)%nat).
    { specialize (Hne1 eq_refl). rewrite Ht1, length_app in Hfuel.
      destruct consumed1; [contradiction|]. cbn [List.length] in Hfuel. lia. }
    apply (IH _ _ _ _ Hlen) in E2 as (Hf2 & He2 & (consumed2 & Ht2) & (cs2 & Hcs2 & Hs2)).
    split; [exact Hf2|]. split; [exact He2|].
    split; [exists (consumed1 ++ consumed2); rewrite Ht1, Ht2, app_assoc; reflexivity|].
    exists (cs1 ++ cs2). split; [apply Forall_app; auto|].
    rewrite run_calls_app, Hs2.
    apply run_calls_self_only. cbn [fresh_world self]. exact Hs1.
  - intros [= <- <-]. split; [discriminate|].
    split; [intros e [= <-]; apply He1; reflexivity|].
    split; [exists consumed1; exact Ht1|]. exists cs1. auto.
Qed.

(** [authenticate] as [run] needs it. *)
Lemma authenticate_inv (w w' : world) (r : result bool) :
  authenticate w = (r, w') ->
  r <> OutOfFuel /\
  self w' = self w /\
  (forall e, r = Raise e -> e = EOFError /\ tty w' = []) /\
  (exists consumed, tty w = consumed ++ tty w').
Proof.
  intros E. pose proof (authenticate_terminates w) as Hf. rewrite E in Hf.
  split; [exact Hf|].
  revert E. unfold authenticate, bind, authenticate_counting.
  destruct (authenticate_loop (authenticate_fuel (self w)) 0 w) as [r1 w1] eqn:E1.
  apply authenticate_loop_reads in E1 as (Hs & (consumed & Ht & _) & He).
  destruct r1 as [[b n]|e|]; intros [= <- <-].
  - split; [exact Hs|]. split; [discriminate | exists consumed; exact Ht].
  - split; [exact Hs|]. split; [intros e' [= <-]; apply He; reflexivity|].
    exists consumed; exact Ht.
  - split; [exact Hs|]. split; [discriminate | exists consumed; exact Ht].
Qed.

(** The whole of [run]. *)
Lemma run_inv (w w' : world) (r : result ending) :
  run float_of_str clock w = (r, w') ->
  r <> OutOfFuel /\
  (forall e, r = Raise e -> e = EOFError /\ tty w' = []) /\
  (exists consumed, tty w = consumed ++ tty w') /\
  (exists cs,
     Forall string_call cs /\
     self w' = self (snd (run_calls float_of_str cs (fresh_world (self w) [])))) /\
  (forall code, r = Return (SystemExit code) ->
     code = 1%Z /\ authenticate w = (Return false, w')).
Proof.
  unfold run. unfold bind at 1.
  destruct (authenticate w) as [ra wa] eqn:Ea.
  pose proof (authenticate_inv w wa ra Ea) as (Hfa & Hsa & Hea & (consumed_a & Hta)).
  assert (Hnil : exists cs, Forall string_call cs /\
            self wa = self (snd (run_calls float_of_str cs (fresh_world (self w) [])))).
  { exists []. split; [constructor | exact Hsa]. }
  destruct ra as [[|]|e|]; [| | |contradiction].
  - cbn [negb]. unfold bind at 1.
    destruct (menu_loop float_of_str clock (S (List.length (tty wa))) 0 wa)
      as [rm wm] eqn:Em.
    apply menu_loop_inv in Em as (Hfm & Hem & (consumed_m & Htm) & (cs & Hcs & Hsm));
      [|lia].
    assert (Hc : exists consumed, tty w = consumed ++ tty wm).
    { exists (consumed_a ++ consumed_m). rewrite Hta, Htm, app_assoc. reflexivity. }
    assert (Hcalls : exists cs, Forall string_call cs /\
              self wm = self (snd (run_calls float_of_str cs (fresh_world (self w) [])))).
    { exists cs. split; [exact Hcs|]. rewrite Hsm.
      apply run_calls_self_only. cbn [fresh_world self]. exact Hsa. }
    destruct rm as [[]|e|]; [| |contradiction].
    + cbn. intros [= <- <-]. split; [discriminate|]. split; [discriminate|].
      split; [exact Hc|]. split; [exact Hcalls|]. discriminate.
    + intros [= <- <-]. split; [discriminate|].
      split; [intros e' [= <-]; apply Hem; reflexivity|].
      split; [exact Hc|]. split; [exact Hcalls|]. discriminate.
  - cbn. intros [= <- <-]. split; [discriminate|]. split; [discriminate|].
    split; [exists consumed_a; exact Hta|]. split; [exact Hnil|].
    intros code [= <-]; auto.
  - intros [= <- <-]. split; [discriminate|].
    split; [intros e' [= <-]; apply Hea; reflexivity|].
    split; [exists consumed_a; exact Hta|]. split; [exact Hnil|]. discriminate.
Qed.

Lemma run_not_authenticated (w w1 : world) :
  authenticate w = (Return false, w1) ->
  run float_of_str clock w = (Return (SystemExit 1), w1).
Proof. intros E. unfold run, bind. rewrite E. reflexivity. Qed.

End SessionFacts.

(** X12.  [run] comes to an end whatever the terminal sends: every pass
    through the menu reads at least one event, so the [while True] loop
    makes at most as many passes as there are events. *)
Theorem run_terminates
    (float_of_str : string -> option float) (clock : nat -> string) (w : world) :
  fst (run float_of_str clock w) <> OutOfFuel.
Proof.
  destruct (run float_of_str clock w) as [r w'] eqn:E.
  apply run_inv in E as (H & _). exact H.
Qed.

(** X13.  The only exception [run] lets through is the [EOFError] of a
    terminal read to its end: no input makes a session die of anything
    else. *)
Theorem run_raises_only_at_end_of_input
    (float_of_str : string -> option float) (clock : nat -> string) (w : world)
    (e : exn) :
  fst (run float_of_str clock w) = Raise e ->
  e = EOFError /\ tty (snd (run float_of_str clock w)) = [].
Proof.
  destruct (run float_of_str clock w) as [r w'] eqn:E.
  apply run_inv in E as (_ & H & _). exact (H e).
Qed.

Lemma run_raises_only_at_end_of_input_witness :
  EOFError = EOFError /\
  tty (snd (run PyFloatStr.float_of_str (fun _ => "09:00"%string)
              (fresh_world default_atm [Typed "1234"; Typed "2"]))) = [].
Proof.
  exact (run_raises_only_at_end_of_input PyFloatStr.float_of_str
           (fun _ => "09:00"%string)
           (fresh_world default_atm [Typed "1234"; Typed "2"]) EOFError eq_refl).
Defined.

(** X14.  Whatever the terminal sends, a session changes the object only
    through [deposit] and [withdraw] calls on strings: the object [run]
    leaves is the one some sequence of such calls leaves.  The terminal is
    read in order. *)
Theorem run_through_ledger_calls
    (float_of_str : string -> option float) (clock : nat -> string) (w : world) :
  (exists cs,
     Forall string_call cs /\
     self (snd (run float_of_str clock w)) =
       self (snd (run_calls float_of_str cs (fresh_world (self w) [])))) /\
  (exists consumed, tty w = consumed ++ tty (snd (run float_of_str clock w))).
Proof.
  destruct (run float_of_str clock w) as [r w'] eqn:E.
  apply run_inv in E as (_ & _ & Hc & Hcs & _). auto.
Qed.

(** X15.  A session on a ledger whose balance is non-negative never leaves
    a negative balance, whatever is typed; it only appends to the history,
    and the PIN and the attempt bound are as before. *)
Theorem run_keeps_ledger_sound
    (float_of_str : string -> option float) (clock : nat -> string) (w : world) :
  (0 <=? _balance (self w))%float = true ->
  (_balance (self (snd (run float_of_str clock w))) <? 0)%float = false /\
  (exists added,
     _transaction_history (self (snd (run float_of_str clock w))) =
       _transaction_history (self w) ++ added) /\
  _pin (self (snd (run float_of_str clock w))) = _pin (self w) /\
  _max_attempts (self (snd (run float_of_str clock w))) = _max_attempts (self w).
Proof.
  intros Hb.
  destruct (run float_of_str clock w) as [r w'] eqn:E.
  apply run_inv in E as (_ & _ & _ & (cs & _ & Hs) & _).
  cbn [snd]. rewrite Hs.
  destruct (run_calls_log float_of_str cs (fresh_world (self w) []))
    as (Hp & Hm & _ & added & Hh & _).
  split; [|split; [exists added; exact Hh | split; [exact Hp | exact Hm]]].
  apply run_calls_not_neg, Binary64.nonneg_not_neg. exact Hb.
Qed.

Lemma run_keeps_ledger_sound_witness :
  (_balance (self (snd (main PyFloatStr.float_of_str (fun _ => "09:00"%string)
       [Typed "1234"; Typed "3"; Typed "1e9"; Typed "3"; Typed "1000"; Typed "5"])))
     <? 0)%float = false.
Proof.
  exact (proj1 (run_keeps_ledger_sound PyFloatStr.float_of_str (fun _ => "09:00"%string)
                  (fresh_world default_atm
                     [Typed "1234"; Typed "3"; Typed "1e9"; Typed "3"; Typed "1000";
                      Typed "5"]) eq_refl)).
Defined.

(** X16.  [run] ends by [sys.exit] exactly when [authenticate] returns
    [False], and then with status 1 and in the state [authenticate] left:
    the menu was not shown and the ledger not touched. *)
Theorem run_exit_status
    (float_of_str : string -> option float) (clock : nat -> string) (w : world) :
  (forall code, fst (run float_of_str clock w) = Return (SystemExit code) ->
     code = 1%Z /\ authenticate w = (Return false, snd (run float_of_str clock w))) /\
  (fst (authenticate w) = Return false ->
     run float_of_str clock w = (Return (SystemExit 1), snd (authenticate w)) /\
     self (snd (run float_of_str clock w)) = self w).
Proof.
  split.
  - destruct (run float_of_str clock w) as [r w'] eqn:E.
    apply run_inv in E as (_ & _ & _ & _ & H). exact H.
  - destruct (authenticate w) as [ra wa] eqn:Ea. cbn [fst snd]. intros ->.
    rewrite (run_not_authenticated float_of_str clock w wa Ea).
    split; [reflexivity|]. cbn [snd].
    apply authenticate_inv in Ea as (_ & Hs & _). exact Hs.
Qed.

Lemma run_exit_status_witness :
  run PyFloatStr.float_of_str (fun _ => "09:00"%string)
    (fresh_world default_atm [Typed "0"; CtrlC; Typed "1234"]) =
  (Return (SystemExit 1),
   snd (authenticate (fresh_world default_atm [Typed "0"; CtrlC; Typed "1234"]))).
Proof.
  exact (proj1 (proj2 (run_exit_status PyFloatStr.float_of_str (fun _ => "09:00"%string)
                         (fresh_world default_atm [Typed "0"; CtrlC; Typed "1234"]))
                  eq_refl)).
Defined.

(** X17.  Ctrl-C in the menu ends the session, not only the operation in
    progress: at the choice prompt, and at the amount prompt of a deposit or
    of a withdrawal, the pass prints the cancellation line and breaks out
    of the loop, the object unchanged and the later events unread. *)
Theorem menu_interrupt_ends_session
    (float_of_str : string -> option float) (now : string) (a : ATMSimulator)
    (out : list line) (s : string) (rest : list tty_event) :
  menu_pass float_of_str now {| self := a; stdout := out; tty := CtrlC :: rest |} =
    (Return true,
     {| self := a;
        stdout := out ++ menu_lines ++ [choice_prompt_line; cancelled_line];
        tty := rest |}) /\
  (py_strip s = "2"%string ->
   menu_pass float_of_str now
     {| self := a; stdout := out; tty := Typed s :: CtrlC :: rest |} =
     (Return true,
      {| self := a;
         stdout := out ++ menu_lines ++
                   [choice_prompt_line; [Lit "Enter amount to deposit: $"]; cancelled_line];
         tty := rest |})) /\
  (py_strip s = "3"%string ->
   menu_pass float_of_str now
     {| self := a; stdout := out; tty := Typed s :: CtrlC :: rest |} =
     (Return true,
      {| self := a;
         stdout := out ++ menu_lines ++
                   [choice_prompt_line; [Lit "Enter amount to withdraw: $"]; cancelled_line];
         tty := rest |})).
Proof.
  split; [|split]; [|intros Hs|intros Hs];
    unfold menu_pass, print_menu, input, check_balance;
    unfold try_except, bind, print, getpass, attr, ret; cbn [self stdout tty];
    rewrite ?Hs; cbn; rewrite <- ?app_assoc; reflexivity.
Qed.

Lemma menu_interrupt_ends_session_witness :
  fst (menu_pass PyFloatStr.float_of_str "09:00"
         (fresh_world default_atm [Typed " 2 "; CtrlC; Typed "5"])) = Return true /\
  fst (menu_pass PyFloatStr.float_of_str "09:00"
         (fresh_world default_atm [Typed "3"; CtrlC; Typed "5"])) = Return true.
Proof.
  pose proof (menu_interrupt_ends_session PyFloatStr.float_of_str "09:00" default_atm []
                " 2 " [Typed "5"]) as (_ & H2 & _).
  pose proof (menu_interrupt_ends_session PyFloatStr.float_of_str "09:00" default_atm []
                "3" [Typed "5"]) as (_ & _ & H3).
  split.
  - exact (f_equal fst (H2 eq_refl)).
  - exact (f_equal fst (H3 eq_refl)).
Defined.

(** X18.  Choice 2 followed by a line hands that line, as it was typed, to
    [deposit], and choice 3 to [withdraw]; whatever the call returns, the
    loop goes on. *)
Theorem menu_amount_goes_to_ledger
    (float_of_str : string -> option float) (now : string) (a : ATMSimulator)
    (out : list line) (s amount : string) (rest : list tty_event) :
  (py_strip s = "2"%string ->
   menu_pass float_of_str now
     {| self := a; stdout := out; tty := Typed s :: Typed amount :: rest |} =
     (Return false,
      snd (deposit float_of_str now (PyStr amount)
             {| self := a;
                stdout := out ++ menu_lines ++
                          [choice_prompt_line; [Lit "Enter amount to deposit: $"]];
                tty := rest |}))) /\
  (py_strip s = "3"%string ->
   menu_pass float_of_str now
     {| self := a; stdout := out; tty := Typed s :: Typed amount :: rest |} =
     (Return false,
      snd (withdraw float_of_str now (PyStr amount)
             {| self := a;
                stdout := out ++ menu_lines ++
                          [choice_prompt_line; [Lit "Enter amount to withdraw: $"]];
                tty := rest |}))).
Proof.
  split; intros Hs;
    unfold menu_pass, print_menu, input, check_balance;
    unfold try_except, bind, print, getpass, attr, ret; cbn [self stdout tty];
    rewrite Hs; cbn [String.eqb Ascii.eqb Bool.eqb andb]; cbn [self stdout tty app];
    unfold menu_lines, choice_prompt_line; rewrite <- ?app_assoc; cbn [app].
  - match goal with
    | |- _ = (_, snd (deposit float_of_str now (PyStr amount) ?W)) => set (w0 := W)
    end.
    match goal with
    | |- context [deposit float_of_str now (PyStr amount)
                    {| self := ?x; stdout := ?y; tty := ?z |}] =>
        change {| self := x; stdout := y; tty := z |} with w0
    end.
    destruct (string_amounts_returns float_of_str now amount w0) as (b & Hb).
    destruct (deposit float_of_str now (PyStr amount) w0) as [r w1].
    cbn [fst] in Hb. subst r. reflexivity.
  - match goal with
    | |- _ = (_, snd (withdraw float_of_str now (PyStr amount) ?W)) => set (w0 := W)
    end.
    match goal with
    | |- context [withdraw float_of_str now (PyStr amount)
                    {| self := ?x; stdout := ?y; tty := ?z |}] =>
        change {| self := x; stdout := y; tty := z |} with w0
    end.
    destruct (string_amounts_returns' float_of_str now amount w0) as (b & Hb).
    destruct (withdraw float_of_str now (PyStr amount) w0) as [r w1].
    cbn [fst] in Hb. subst r. reflexivity.
Qed.

Lemma menu_amount_goes_to_ledger_witness :
  _balance (self (snd (menu_pass PyFloatStr.float_of_str "09:00"
     (fresh_world default_atm [Typed "2"; Typed "250.50"])))) = 1250.5%float.
Proof.
  pose proof (proj1 (menu_amount_goes_to_ledger PyFloatStr.float_of_str "09:00"
                       default_atm [] "2" "250.50" []) eq_refl) as H.
  exact (f_equal (fun r => _balance (self (snd r))) H).
Defined.

(** X19.  The choice is compared after [strip()].  Choice 5 prints the
    goodbye line and leaves the loop; a choice that is none of 1 to 5 prints
    "Invalid choice. Please try again." and the loop goes on.  Neither
    changes the object or reads further. *)
Theorem menu_exit_and_unknown_choice
    (float_of_str : string -> option float) (now : string) (a : ATMSimulator)
    (out : list line) (s : string) (rest : list tty_event) :
  (py_strip s = "5"%string ->
   menu_pass float_of_str now {| self := a; stdout := out; tty := Typed s :: rest |} =
     (Return true,
      {| self := a;
         stdout := out ++ menu_lines ++ [choice_prompt_line; goodbye_line];
         tty := rest |})) /\
  (~ In (py_strip s) ["1"; "2"; "3"; "4"; "5"]%string ->
   menu_pass float_of_str now {| self := a; stdout := out; tty := Typed s :: rest |} =
     (Return false,
      {| self := a;
         stdout := out ++ menu_lines ++ [choice_prompt_line; invalid_choice_line];
         tty := rest |})).
Proof.
  split; intros Hs;
    unfold menu_pass, print_menu, input, check_balance;
    unfold try_except, bind, print, getpass, attr, ret; cbn [self stdout tty].
  - rewrite Hs. cbn. rewrite <- ?app_assoc. reflexivity.
  - assert (H1 : String.eqb (py_strip s) "1" = false)
      by (apply String.eqb_neq; intros E; apply Hs; rewrite E; cbn; auto).
    assert (H2 : String.eqb (py_strip s) "2" = false)
      by (apply String.eqb_neq; intros E; apply Hs; rewrite E; cbn; auto).
    assert (H3 : String.eqb (py_strip s) "3" = false)
      by (apply String.eqb_neq; intros E; apply Hs; rewrite E; cbn; auto).
    assert (H4 : String.eqb (py_strip s) "4" = false)
      by (apply String.eqb_neq; intros E; apply Hs; rewrite E; cbn; auto).
    assert (H5 : String.eqb (py_strip s) "5" = false)
      by (apply String.eqb_neq; intros E; apply Hs; rewrite E; cbn; auto 6).
    rewrite H1, H2, H3, H4, H5. cbn. rewrite <- ?app_assoc. reflexivity.
Qed.

Lemma menu_exit_and_unknown_choice_witness :
  fst (menu_pass PyFloatStr.float_of_str "09:00"
         (fresh_world default_atm [Typed "  5 "; Typed "1"])) = Return true /\
  fst (menu_pass PyFloatStr.float_of_str "09:00"
         (fresh_world default_atm [Typed "deposit"; Typed "1"])) = Return false.
Proof.
  pose proof (menu_exit_and_unknown_choice PyFloatStr.float_of_str "09:00" default_atm []
                "  5 " [Typed "1"]) as (H5 & _).
  pose proof (menu_exit_and_unknown_choice PyFloatStr.float_of_str "09:00" default_atm []
                "deposit" [Typed "1"]) as (_ & Hu).
  split.
  - exact (f_equal fst (H5 eq_refl)).
  - refine (f_equal fst (Hu _)).
    cbn. intros [H|[H|[H|[H|[H|[]]]]]]; discriminate H.
Defined.

(** X20.  Choices 1 and 4 only print: choice 1 the balance line of
    [check_balance], choice 4 the listing of [print_transaction_history];
    the object is unchanged, nothing more is read and the loop goes on. *)
Theorem menu_read_only_choices
    (float_of_str : string -> option float) (now : string) (a : ATMSimulator)
    (out : list line) (s : string) (rest : list tty_event) :
  (py_strip s = "1"%string ->
   menu_pass float_of_str now {| self := a; stdout := out; tty := Typed s :: rest |} =
     (Return false,
      {| self := a;
         stdout := out ++ menu_lines ++
                   [choice_prompt_line;
                    [Lit "Your current balance is: $"; Money (_balance a)]];
         tty := rest |})) /\
  (py_strip s = "4"%string ->
   menu_pass float_of_str now {| self := a; stdout := out; tty := Typed s :: rest |} =
     (Return false,
      {| self := a;
         stdout := out ++ menu_lines ++ [choice_prompt_line] ++
                   match _transaction_history a with
                   | [] => [no_transactions_line]
                   | history => history_header_line :: map history_line history
                   end;
         tty := rest |})).
Proof.
  split; intros Hs;
    unfold menu_pass, print_menu, input, check_balance;
    unfold try_except, bind, print, getpass, attr, ret; cbn [self stdout tty];
    rewrite Hs; cbn [String.eqb Ascii.eqb Bool.eqb andb].
  - cbn. rewrite <- ?app_assoc. reflexivity.
  - match goal with
    | |- context [print_transaction_history ?W] => rewrite (print_transaction_history_eq W)
    end.
    cbn [self stdout tty]. unfold menu_lines, choice_prompt_line.
    rewrite <- ?app_assoc. reflexivity.
Qed.

Lemma menu_read_only_choices_witness :
  menu_pass PyFloatStr.float_of_str "09:00" (fresh_world default_atm [Typed "4"]) =
    (Return false,
     {| self := default_atm;
        stdout := menu_lines ++ [choice_prompt_line; no_transactions_line];
        tty := [] |}) /\
  fst (menu_pass PyFloatStr.float_of_str "09:00" (fresh_world default_atm [Typed "1"]))
    = Return false.
Proof.
  pose proof (menu_read_only_choices PyFloatStr.float_of_str "09:00" default_atm []
                "4" []) as (_ & H4).
  pose proof (menu_read_only_choices PyFloatStr.float_of_str "09:00" default_atm []
                "1" []) as (H1 & _).
  split.
  - exact (H4 eq_refl).
  - exact (f_equal fst (H1 eq_refl)).
Defined.
